(** * A todo-list HTTP service over a document store

    Shallow embedding of the request handlers of [src/main.go] and of
    [src/unnamed/part_000] (a second copy of the same program, with a
    different ending of [updateTodo]), together with the library calls the
    handlers make: [strings.TrimSpace], [encoding/hex], [bson.ObjectId],
    and the [mgo] collection operations [Find/All], [Insert], [Update] and
    [RemoveId].

    Go strings are byte strings: they are modelled as [string], one [ascii]
    per byte. *)

From Stdlib Require Import ZArith Lia Ascii String.
From stdpp Require Import gmap strings list fin_maps.

Local Open Scope string_scope.
Local Open Scope Z_scope.

(** ** Bytes *)

Definition byte_val (c : ascii) : Z := Z.of_N (Ascii.N_of_ascii c).
Definition byte_of (z : Z) : ascii := Ascii.ascii_of_N (Z.to_N (z mod 256)).

(** [s[i]]; the callers below check [i < len(s)] first, as the Go code does. *)
Definition byte_at (s : string) (i : nat) : Z :=
  match String.get i s with
  | Some c => byte_val c
  | None => 0
  end.

(** [s[i:j]] *)
Definition slice (s : string) (i j : nat) : string := String.substring i (j - i) s.

(** ** encoding/hex *)
Module hex.

Definition hextable : string := "0123456789abcdef".

Definition digit (n : Z) : ascii :=
  match String.get (Z.to_nat n) hextable with
  | Some c => c
  | None => "0"%char
  end.

(** [hex.EncodeToString]: two lower-case digits per byte. *)
Fixpoint EncodeToString (src : string) : string :=
  match src with
  | EmptyString => EmptyString
  | String v rest =>
      String (digit (Z.shiftr (byte_val v) 4))
        (String (digit (Z.land (byte_val v) 15)) (EncodeToString rest))
  end.

(** [fromHexChar]: digits of either case. *)
Definition fromHexChar (c : ascii) : option Z :=
  let b := byte_val c in
  if (48 <=? b) && (b <=? 57) then Some (b - 48)
  else if (97 <=? b) && (b <=? 102) then Some (b - 97 + 10)
  else if (65 <=? b) && (b <=? 70) then Some (b - 65 + 10)
  else None.

(** [hex.DecodeString]: [None] stands for the error result
    ([InvalidByteError] or [ErrLength]). *)
Fixpoint DecodeString (s : string) : option string :=
  match s with
  | EmptyString => Some EmptyString
  | String _ EmptyString => None
  | String p (String q rest) =>
      match fromHexChar p, fromHexChar q with
      | Some a, Some b =>
          match DecodeString rest with
          | Some d => Some (String (byte_of (Z.lor (Z.shiftl a 4) b)) d)
          | None => None
          end
      | _, _ => None
      end
  end.

End hex.

(** ** unicode/utf8 and unicode *)
Module utf8.

Definition RuneError : Z := 65533.
Definition RuneSelf : Z := 128.
Definition UTFMax : Z := 4.

(** The [first] table: information about the first byte of an encoding.
    [0xF0] is ASCII, [0xF1] invalid; otherwise the low three bits are the
    size and the high four bits index [acceptRanges]. *)
Definition first (b : Z) : Z :=
  if b <? 128 then 240
  else if b <? 194 then 241
  else if b <? 224 then 2
  else if b =? 224 then 19
  else if b <? 237 then 3
  else if b =? 237 then 35
  else if b <? 240 then 3
  else if b =? 240 then 52
  else if b <? 244 then 4
  else if b =? 244 then 68
  else 241.

Definition acceptRanges (i : Z) : Z * Z :=
  if i =? 0 then (128, 191)
  else if i =? 1 then (160, 191)
  else if i =? 2 then (128, 159)
  else if i =? 3 then (144, 191)
  else (128, 143).

(** [utf8.DecodeRuneInString]: the first rune of [s] and its width in
    bytes; [(RuneError, 1)] on an invalid encoding. *)
Definition DecodeRuneInString (s : string) : Z * nat :=
  let n := String.length s in
  if (n <? 1)%nat then (RuneError, 0%nat)
  else
    let s0 := byte_at s 0 in
    let x := first s0 in
    if 240 <=? x then ((if x =? 241 then RuneError else s0), 1%nat)
    else
      let sz := Z.land x 7 in
      let accept := acceptRanges (Z.shiftr x 4) in
      if Z.of_nat n <? sz then (RuneError, 1%nat)
      else
        let s1 := byte_at s 1 in
        if (s1 <? fst accept) || (snd accept <? s1) then (RuneError, 1%nat)
        else if sz <=? 2
        then (Z.lor (Z.shiftl (Z.land s0 31) 6) (Z.land s1 63), 2%nat)
        else
          let s2 := byte_at s 2 in
          if (s2 <? 128) || (191 <? s2) then (RuneError, 1%nat)
          else if sz <=? 3
          then (Z.lor (Z.lor (Z.shiftl (Z.land s0 15) 12)
                             (Z.shiftl (Z.land s1 63) 6))
                      (Z.land s2 63), 3%nat)
          else
            let s3 := byte_at s 3 in
            if (s3 <? 128) || (191 <? s3) then (RuneError, 1%nat)
            else (Z.lor (Z.lor (Z.lor (Z.shiftl (Z.land s0 7) 18)
                                      (Z.shiftl (Z.land s1 63) 12))
                               (Z.shiftl (Z.land s2 63) 6))
                        (Z.land s3 63), 4%nat).

(** [utf8.RuneStart]: not a continuation byte. *)
Definition RuneStart (b : Z) : bool := negb (Z.land b 192 =? 128).

(** The backward scan of [DecodeLastRuneInString]:
    [for start--; start >= lim; start-- { if RuneStart(s[start]) { break } }],
    entered with [start] already decremented.  It runs at most [UTFMax]
    times, which [k] counts. *)
Fixpoint scan_back (k : nat) (s : string) (lim start : Z) : Z :=
  match k with
  | O => start
  | S k' =>
      if start <? lim then start
      else if RuneStart (byte_at s (Z.to_nat start)) then start
      else scan_back k' s lim (start - 1)
  end.

(** [utf8.DecodeLastRuneInString] *)
Definition DecodeLastRuneInString (s : string) : Z * nat :=
  let e := Z.of_nat (String.length s) in
  if e =? 0 then (RuneError, 0%nat)
  else
    let start := e - 1 in
    let r := byte_at s (Z.to_nat start) in
    if r <? RuneSelf then (r, 1%nat)
    else
      let lim := Z.max 0 (e - UTFMax) in
      let start := scan_back 4 s lim (start - 1) in
      let start := Z.max 0 start in
      let '(r, size) := DecodeRuneInString (slice s (Z.to_nat start) (Z.to_nat e)) in
      if start + Z.of_nat size =? e then (r, size) else (RuneError, 1%nat).

End utf8.

Module unicode.

(** [unicode.IsSpace]: the Latin-1 cases, then the White_Space table. *)
Definition IsSpace (r : Z) : bool :=
  if (0 <=? r) && (r <=? 255) then
    (9 <=? r) && (r <=? 13) || (r =? 32) || (r =? 133) || (r =? 160)
  else
    (r =? 5760) || (8192 <=? r) && (r <=? 8202) || (r =? 8232) || (r =? 8233)
    || (r =? 8239) || (r =? 8287) || (r =? 12288).

End unicode.

(** ** strings *)
Module gostrings.

(** [indexFunc]: [for i, r := range s { if f(r) == truth { return i } }].
    The range loop decodes one rune at byte [i] and moves on by its width;
    [skip] counts the bytes of the current rune still to step over.
    [-1] when no rune qualifies. *)
Fixpoint indexFunc_at (f : Z -> bool) (truth : bool)
    (s : string) (skip i : nat) : Z :=
  match s with
  | EmptyString => -1
  | String _ rest =>
      match skip with
      | S k => indexFunc_at f truth rest k (S i)
      | O =>
          let '(r, size) := utf8.DecodeRuneInString s in
          if Bool.eqb (f r) truth then Z.of_nat i
          else indexFunc_at f truth rest (size - 1) (S i)
      end
  end.

Definition indexFunc (s : string) (f : Z -> bool) (truth : bool) : Z :=
  indexFunc_at f truth s 0 0.

(** [lastIndexFunc]:
    [for i := len(s); i > 0; { r, size := DecodeLastRuneInString(s[0:i]);
       i -= size; if f(r) == truth { return i } }; return -1]. *)
Fixpoint lastIndexFunc_at (f : Z -> bool) (truth : bool)
    (s : string) (skip i : nat) : Z :=
  match i with
  | O => -1
  | S i' =>
      match skip with
      | S k => lastIndexFunc_at f truth s k i'
      | O =>
          let '(r, size) := utf8.DecodeLastRuneInString (slice s 0 i) in
          if Bool.eqb (f r) truth then Z.of_nat (i - size)
          else lastIndexFunc_at f truth s (size - 1) i'
      end
  end.

Definition lastIndexFunc (s : string) (f : Z -> bool) (truth : bool) : Z :=
  lastIndexFunc_at f truth s 0 (String.length s).

Definition TrimLeftFunc (s : string) (f : Z -> bool) : string :=
  let i := indexFunc s f false in
  if i =? -1 then EmptyString
  else slice s (Z.to_nat i) (String.length s).

Definition TrimRightFunc (s : string) (f : Z -> bool) : string :=
  let i := lastIndexFunc s f false in
  let i :=
    if (0 <=? i) && (utf8.RuneSelf <=? byte_at s (Z.to_nat i)) then
      i + Z.of_nat (snd (utf8.DecodeRuneInString
                           (slice s (Z.to_nat i) (String.length s))))
    else i + 1 in
  slice s 0 (Z.to_nat i).

Definition TrimFunc (s : string) (f : Z -> bool) : string :=
  TrimRightFunc (TrimLeftFunc s f) f.

(** [strings.TrimSpace]: all leading and trailing white space removed, as
    Unicode defines it.  (Later Go versions first run a loop over ASCII
    bytes and fall back to [TrimFunc]; the string returned is the same.) *)
Definition TrimSpace (s : string) : string := TrimFunc s unicode.IsSpace.

End gostrings.

(** ** time *)
Module time.

(** An instant, at the millisecond resolution the store keeps, counted
    from the zero [time.Time] (January 1, year 1, UTC). *)
Definition Time : Type := Z.

(** The zero value [time.Time{}]. *)
Definition zero : Time := 0.

End time.

(** ** gopkg.in/mgo.v2/bson *)
Module bson.

(** [type ObjectId string]: twelve raw bytes. *)
Definition ObjectId : Type := string.

(** [ObjectId.Hex] *)
Definition Hex (id : ObjectId) : string := hex.EncodeToString id.

(** [bson.IsObjectIdHex] *)
Definition IsObjectIdHex (s : string) : bool :=
  if negb (String.length s =? 24)%nat then false
  else match hex.DecodeString s with
       | Some _ => true
       | None => false
       end.

(** [bson.ObjectIdHex]; [None] is the panic on invalid input. *)
Definition ObjectIdHex (s : string) : option ObjectId :=
  match hex.DecodeString s with
  | Some d => if (String.length d =? 12)%nat then Some d else None
  | None => None
  end.

(** What [bson.NewObjectId] reads from the process and the clock. *)
Record IdSource := {
  unix_seconds : Z;        (* time.Now().Unix() *)
  machineId : Z * Z * Z;   (* three bytes computed at start-up *)
  processId : Z;           (* os.Getpid() *)
  objectIdCounter : Z;     (* the counter after atomic.AddUint32(.., 1) *)
}.

(** [bson.NewObjectId]: 4 bytes of time, 3 of machine, 2 of pid, 3 of
    counter, all big endian. *)
Definition NewObjectId (g : IdSource) : ObjectId :=
  let t := unix_seconds g in
  let '(m0, m1, m2) := machineId g in
  let p := processId g in
  let i := objectIdCounter g in
  String (byte_of (Z.shiftr t 24)) (String (byte_of (Z.shiftr t 16))
 (String (byte_of (Z.shiftr t 8))  (String (byte_of t)
 (String (byte_of m0) (String (byte_of m1) (String (byte_of m2)
 (String (byte_of (Z.shiftr p 8))  (String (byte_of p)
 (String (byte_of (Z.shiftr i 16)) (String (byte_of (Z.shiftr i 8))
 (String (byte_of i) EmptyString))))))))))).

(** The BSON values this program stores and reads back. *)
Inductive value :=
| VObjectId (o : ObjectId)
| VString (s : string)
| VBool (b : bool)
| VTime (t : time.Time).

#[global] Instance value_eq_dec : EqDecision value.
Proof. solve_decision. Defined.

End bson.

(** [bson.M], a document: field name to value. *)
Abbreviation document := (gmap string bson.value).

(** ** Errors the handlers can meet *)
Inductive error :=
| ErrNotFound                  (* mgo.ErrNotFound *)
| ErrDuplicateKey              (* *mgo.LastError, E11000 duplicate key *)
| ErrImmutableId               (* *mgo.LastError, the _id of a document cannot change *)
| ErrSession (msg : string)    (* the store cannot be reached or does not answer *)
| ErrDecode (msg : string).    (* encoding/json: syntax error, wrong type, bad timestamp, EOF *)

#[global] Instance error_eq_dec : EqDecision error.
Proof. solve_decision. Defined.

(** ** The two structs of the program *)

(** [todoModel], the storage form. *)
Module todoModel.
Record t := Build {
  ID : bson.ObjectId;
  Title : string;
  Completed : bool;
  CreatedAt : time.Time;
}.
End todoModel.

(** [todo], the wire form. *)
Module todo.
Record t := Build {
  ID : string;
  Title : string;
  Completed : bool;
  CreatedAt : time.Time;
}.
End todo.

(** ** bson marshalling of [todoModel]

    The struct tags differ between the two files in the key of [CreatedAt]
    only ([createdAt] in main.go, [created_at] in part_000), so the key is a
    parameter. *)
Module bson_struct.

(** [bson.Marshal] on a [todoModel]: [_id] has [omitempty], so the empty
    [ObjectId] is left out. *)
Definition Marshal (createdAt_key : string) (tm : todoModel.t) : document :=
  let fields : document :=
    <["title" := bson.VString (todoModel.Title tm)]>
    (<["completed" := bson.VBool (todoModel.Completed tm)]>
    (<[createdAt_key := bson.VTime (todoModel.CreatedAt tm)]> ∅)) in
  if decide (todoModel.ID tm = EmptyString) then fields
  else <["_id" := bson.VObjectId (todoModel.ID tm)]> fields.

(** [bson.Unmarshal] into a [todoModel]: a field whose key is absent, or
    whose value cannot be set into the Go field, keeps its zero value.
    [ObjectId] and [string] are both of string kind, so either fills the
    other. *)
Definition Unmarshal (createdAt_key : string) (d : document) : todoModel.t :=
  let str (k : string) : string :=
    match d !! k with
    | Some (bson.VObjectId o) => o
    | Some (bson.VString s) => s
    | _ => EmptyString
    end in
  {| todoModel.ID := str "_id";
     todoModel.Title := str "title";
     todoModel.Completed :=
       match d !! "completed" with Some (bson.VBool b) => b | _ => false end;
     todoModel.CreatedAt :=
       match d !! createdAt_key with Some (bson.VTime t) => t | _ => time.zero end |}.

End bson_struct.

(** ** gopkg.in/mgo.v2: one collection of a document store

    The collection is the list of its documents in storage order.  Every
    call goes through the session, which may fail before the store is
    reached. *)
Module mgo.

Record Session := {
  (** [Some e]: this call fails with [e] and the store is not touched. *)
  fault : option error;
  (** The [_id] the server gives a document inserted without one. *)
  server_id : bson.ObjectId;
}.

(** A document matches a selector of plain fields when it has each of
    them with the same value; [bson.M{}] matches every document. *)
Definition matches (selector d : document) : Prop :=
  map_Forall (λ k v, d !! k = Some v) selector.

#[global] Instance matches_dec selector d : Decision (matches selector d).
Proof. unfold matches. apply _. Defined.

(** [c.Find(selector).All(&result)]: every matching document, decoded. *)
Definition FindAll {T} (decode : document → T) (s : Session)
    (c : list document) (selector : document) : list T * option error :=
  match fault s with
  | Some e => ([], Some e)
  | None => (decode <$> filter (matches selector) c, None)
  end.

(** [c.Insert(doc)]: appended, unless a document with this [_id] is
    already stored. *)
Definition Insert (s : Session) (c : list document) (doc : document)
    : list document * option error :=
  match fault s with
  | Some e => (c, Some e)
  | None =>
      let doc :=
        match doc !! "_id" with
        | Some _ => doc
        | None => <["_id" := bson.VObjectId (server_id s)]> doc
        end in
      match list_find (λ d, d !! "_id" = doc !! "_id") c with
      | Some _ => (c, Some ErrDuplicateKey)
      | None => ((c ++ [doc])%list, None)
      end
  end.

(** The document a stored [d] becomes under an update document that has
    no [$] operator: the update document itself, under the [_id] of [d].
    Fields of [d] the update document does not name are gone. *)
Definition replacement (d update : document) : document + error :=
  match d !! "_id", update !! "_id" with
  | Some i, Some j => if decide (i = j) then inl update else inr ErrImmutableId
  | Some i, None => inl (<["_id" := i]> update)
  | None, _ => inl update
  end.

(** [c.Update(selector, update)]: the first matching document is
    modified; [ErrNotFound] when none matches. *)
Definition Update (s : Session) (c : list document)
    (selector update : document) : list document * option error :=
  match fault s with
  | Some e => (c, Some e)
  | None =>
      match list_find (matches selector) c with
      | None => (c, Some ErrNotFound)
      | Some (i, d) =>
          match replacement d update with
          | inl d' => (<[i := d']> c, None)
          | inr e => (c, Some e)
          end
      end
  end.

(** [c.Remove(selector)]: the first matching document is removed;
    [ErrNotFound] when none matches. *)
Definition Remove (s : Session) (c : list document) (selector : document)
    : list document * option error :=
  match fault s with
  | Some e => (c, Some e)
  | None =>
      match list_find (matches selector) c with
      | None => (c, Some ErrNotFound)
      | Some (i, _) => (delete i c, None)
      end
  end.

(** [c.RemoveId(id)] is [c.Remove(bson.D{{"_id", id}})]. *)
Definition RemoveId (s : Session) (c : list document) (id : bson.ObjectId)
    : list document * option error :=
  Remove s c {[ "_id" := bson.VObjectId id ]}.

(** The calls a handler issues, for the record. *)
Inductive call :=
| CallFindAll (selector : document)
| CallInsert (doc : document)
| CallUpdate (selector update : document)
| CallRemoveId (id : bson.ObjectId).

End mgo.

(** ** net/http, renderer, chi, encoding/json *)
Module http.
Definition StatusProcessing : Z := 102.
Definition StatusOK : Z := 200.
Definition StatusCreated : Z := 201.
Definition StatusBadRequest : Z := 400.
End http.

Module renderer.

(** The values the handlers put in a response. *)
Inductive value :=
| Str (s : string)
| Err (e : error)
| Todos (l : list todo.t).

(** The third argument of [rnd.JSON]: a [renderer.M], or an error. *)
Inductive payload :=
| M (m : gmap string value)
| Plain (e : error).

Record Response := { status : Z; body : payload }.

(** [rnd.JSON(w, status, v)]: one response written to [w]. *)
Definition JSON (w : list Response) (status : Z) (v : payload) : list Response :=
  (w ++ [ {| status := status; body := v |} ])%list.

End renderer.

Module json.
(** What [json.NewDecoder(r.Body).Decode(&t)] comes to on a request body:
    an error, or the [todo] filled from the first JSON value of the body
    (keys that are absent or null leave the zero value). *)
Inductive decoded :=
| Failed (err : error)
| Into (t : todo.t).
End json.

Record Request := {
  (** [chi.URLParam(r, key)]; the empty string for a key the route lacks. *)
  URLParams : string → string;
  Body : json.decoded;
}.

Module chi.
Definition URLParam (r : Request) (key : string) : string := URLParams r key.
End chi.

(** What a handler reads from outside the request and the collection. *)
Record Env := {
  id_source : bson.IdSource;   (* read by bson.NewObjectId() *)
  clock : time.Time;           (* time.Now() *)
  session : mgo.Session;       (* the state of db's session at the call *)
}.

(** What a handler leaves behind: the collection, the store calls it
    issued, and the responses it wrote. *)
Record Result := {
  stored : list document;
  issued : list mgo.call;
  written : list renderer.Response;
}.

(** The methods [todoHandlers] routes. *)
Inductive Method := GET | POST | PUT | DELETE.

(** A handler either returns, leaving a [Result], or panics ([None]): the
    only call that can panic is [bson.ObjectIdHex]. *)

(** ** src/main.go *)
Module Main.

(** The [bson] tags of [todoModel] in this file. *)
Definition Marshal := bson_struct.Marshal "createdAt".
Definition Unmarshal := bson_struct.Unmarshal "createdAt".

Definition fetchTodos (e : Env) (r : Request) (c : list document) : option Result :=
  let '(todos, err) := mgo.FindAll Unmarshal (session e) c ∅ in
  match err with
  | Some err =>
      Some {| stored := c; issued := [mgo.CallFindAll ∅];
              written := renderer.JSON [] http.StatusProcessing
                (renderer.M (<["message" := renderer.Str "Failed to fetch todo"]>
                             (<["error" := renderer.Err err]> ∅))) |}
  | None =>
      let todoList :=
        foldl (λ todoList t,
                 (todoList ++ [ {| todo.ID := bson.Hex (todoModel.ID t);
                                   todo.Title := todoModel.Title t;
                                   todo.Completed := todoModel.Completed t;
                                   todo.CreatedAt := todoModel.CreatedAt t |} ])%list)
              [] todos in
      Some {| stored := c; issued := [mgo.CallFindAll ∅];
              written := renderer.JSON [] http.StatusOK
                (renderer.M (<["data" := renderer.Todos todoList]> ∅)) |}
  end.

Definition createTodo (e : Env) (r : Request) (c : list document) : option Result :=
  (* step 1 *)
  match Body r with
  | json.Failed err =>
      Some {| stored := c; issued := [];
              written := renderer.JSON [] http.StatusProcessing (renderer.Plain err) |}
  | json.Into t =>
      (* step 2 *)
      if decide (todo.Title t = EmptyString) then
        Some {| stored := c; issued := [];
                written := renderer.JSON [] http.StatusBadRequest
                  (renderer.M (<["message" := renderer.Str "The title is required"]> ∅)) |}
      else
        (* step 3 *)
        let tm := {| todoModel.ID := bson.NewObjectId (id_source e);
                     todoModel.Title := todo.Title t;
                     todoModel.Completed := false;
                     todoModel.CreatedAt := clock e |} in
        (* step 4 *)
        let '(c', err) := mgo.Insert (session e) c (Marshal tm) in
        match err with
        | Some err =>
            Some {| stored := c'; issued := [mgo.CallInsert (Marshal tm)];
                    written := renderer.JSON [] http.StatusProcessing
                      (renderer.M (<["message" := renderer.Str "Failed to save todo"]>
                                   (<["error" := renderer.Err err]> ∅))) |}
        | None =>
            (* step 5 *)
            Some {| stored := c'; issued := [mgo.CallInsert (Marshal tm)];
                    written := renderer.JSON [] http.StatusCreated
                      (renderer.M (<["message" := renderer.Str "Todo created successfully"]>
                                   (<["todo_id" := renderer.Str (bson.Hex (todoModel.ID tm))]> ∅))) |}
        end
  end.

Definition deleteTodo (e : Env) (r : Request) (c : list document) : option Result :=
  (* step 1 *)
  let id := gostrings.TrimSpace (chi.URLParam r "id") in
  (* step 2 *)
  if negb (bson.IsObjectIdHex id) then
    Some {| stored := c; issued := [];
            written := renderer.JSON [] http.StatusBadRequest
              (renderer.M (<["message" := renderer.Str "The ID is invalid"]> ∅)) |}
  else
    (* step 3 *)
    match bson.ObjectIdHex id with
    | None => None
    | Some oid =>
        let '(c', err) := mgo.RemoveId (session e) c oid in
        match err with
        | Some err =>
            Some {| stored := c'; issued := [mgo.CallRemoveId oid];
                    written := renderer.JSON [] http.StatusProcessing
                      (renderer.M (<["message" := renderer.Str "Failed to delete todo"]>
                                   (<["error" := renderer.Err err]> ∅))) |}
        | None =>
            Some {| stored := c'; issued := [mgo.CallRemoveId oid];
                    written := renderer.JSON [] http.StatusOK
                      (renderer.M (<["message" := renderer.Str "Todo deleted successfully"]> ∅)) |}
        end
    end.

Definition updateTodo (e : Env) (r : Request) (c : list document) : option Result :=
  let id := gostrings.TrimSpace (chi.URLParam r "id") in
  if negb (bson.IsObjectIdHex id) then
    Some {| stored := c; issued := [];
            written := renderer.JSON [] http.StatusBadRequest
              (renderer.M (<["message" := renderer.Str "The ID is invalid"]> ∅)) |}
  else
    match Body r with
    | json.Failed err =>
        Some {| stored := c; issued := [];
                written := renderer.JSON [] http.StatusProcessing (renderer.Plain err) |}
    | json.Into t =>
        if decide (todo.Title t = EmptyString) then
          Some {| stored := c; issued := [];
                  written := renderer.JSON [] http.StatusBadRequest
                    (renderer.M (<["message" := renderer.Str "The Title field is required"]> ∅)) |}
        else
          match bson.ObjectIdHex id with
          | None => None
          | Some oid =>
              let selector : document := {[ "_id" := bson.VObjectId oid ]} in
              let update : document :=
                <["title" := bson.VString (todo.Title t)]>
                (<["completed" := bson.VBool (todo.Completed t)]> ∅) in
              let '(c', err) := mgo.Update (session e) c selector update in
              match err with
              | Some err =>
                  Some {| stored := c'; issued := [mgo.CallUpdate selector update];
                          written := renderer.JSON [] http.StatusProcessing
                            (renderer.M (<["message" := renderer.Str "Failed to update todo"]> ∅)) |}
              | None =>
                  (* the function ends here: nothing is written *)
                  Some {| stored := c'; issued := [mgo.CallUpdate selector update];
                          written := [] |}
              end
          end
    end.

(** [todoHandlers]: [Get "/"], [Post "/"], [Put "/{id}"], [Delete "/{id}"]. *)
Definition todoHandlers (m : Method) : Env → Request → list document → option Result :=
  match m with
  | GET => fetchTodos
  | POST => createTodo
  | PUT => updateTodo
  | DELETE => deleteTodo
  end.

End Main.

(** ** src/unnamed/part_000 *)
Module Part000.

(** The [bson] tags of [todoModel] in this file. *)
Definition Marshal := bson_struct.Marshal "created_at".
Definition Unmarshal := bson_struct.Unmarshal "created_at".

Definition createTodo (e : Env) (r : Request) (c : list document) : option Result :=
  match Body r with
  | json.Failed err =>
      Some {| stored := c; issued := [];
              written := renderer.JSON [] http.StatusProcessing (renderer.Plain err) |}
  | json.Into t =>
      (* validation of title *)
      if decide (todo.Title t = EmptyString) then
        Some {| stored := c; issued := [];
                written := renderer.JSON [] http.StatusBadRequest
                  (renderer.M (<["message" := renderer.Str "The title field is important"]> ∅)) |}
      else
        let tm := {| todoModel.ID := bson.NewObjectId (id_source e);
                     todoModel.Title := todo.Title t;
                     todoModel.Completed := false;
                     todoModel.CreatedAt := clock e |} in
        let '(c', err) := mgo.Insert (session e) c (Marshal tm) in
        match err with
        | Some err =>
            Some {| stored := c'; issued := [mgo.CallInsert (Marshal tm)];
                    written := renderer.JSON [] http.StatusProcessing
                      (renderer.M (<["message" := renderer.Str "Failed to save todo"]>
                                   (<["error" := renderer.Err err]> ∅))) |}
        | None =>
            Some {| stored := c'; issued := [mgo.CallInsert (Marshal tm)];
                    written := renderer.JSON [] http.StatusCreated
                      (renderer.M (<["message" := renderer.Str "Todo created successfully"]>
                                   (<["todo_id" := renderer.Str (bson.Hex (todoModel.ID tm))]> ∅))) |}
        end
  end.

Definition updateTodo (e : Env) (r : Request) (c : list document) : option Result :=
  let id := gostrings.TrimSpace (chi.URLParam r "id") in
  if negb (bson.IsObjectIdHex id) then
    Some {| stored := c; issued := [];
            written := renderer.JSON [] http.StatusBadRequest
              (renderer.M (<["message" := renderer.Str "The id is invalid"]> ∅)) |}
  else
    match Body r with
    | json.Failed err =>
        Some {| stored := c; issued := [];
                written := renderer.JSON [] http.StatusProcessing (renderer.Plain err) |}
    | json.Into t =>
        (* validation of the title field *)
        if decide (todo.Title t = EmptyString) then
          Some {| stored := c; issued := [];
                  written := renderer.JSON [] http.StatusBadRequest
                    (renderer.M (<["message" := renderer.Str "The title field is required"]> ∅)) |}
        else
          match bson.ObjectIdHex id with
          | None => None
          | Some oid =>
              let selector : document := {[ "_id" := bson.VObjectId oid ]} in
              let update : document :=
                <["title" := bson.VString (todo.Title t)]>
                (<["completed" := bson.VBool (todo.Completed t)]> ∅) in
              let '(c', err) := mgo.Update (session e) c selector update in
              match err with
              | Some err =>
                  Some {| stored := c'; issued := [mgo.CallUpdate selector update];
                          written := renderer.JSON [] http.StatusProcessing
                            (renderer.M (<["message" := renderer.Str "Failed to update todo"]>
                                         (<["error" := renderer.Err err]> ∅))) |}
              | None =>
                  Some {| stored := c'; issued := [mgo.CallUpdate selector update];
                          written := renderer.JSON [] http.StatusOK
                            (renderer.M (<["message" := renderer.Str "Todo updated successfully"]> ∅)) |}
              end
          end
    end.

Definition fetchTodos (e : Env) (r : Request) (c : list document) : option Result :=
  let '(todos, err) := mgo.FindAll Unmarshal (session e) c ∅ in
  match err with
  | Some err =>
      Some {| stored := c; issued := [mgo.CallFindAll ∅];
              written := renderer.JSON [] http.StatusProcessing
                (renderer.M (<["message" := renderer.Str "Failed to fetch todo"]>
                             (<["error" := renderer.Err err]> ∅))) |}
  | None =>
      let todoList :=
        foldl (λ todoList t,
                 (todoList ++ [ {| todo.ID := bson.Hex (todoModel.ID t);
                                   todo.Title := todoModel.Title t;
                                   todo.Completed := todoModel.Completed t;
                                   todo.CreatedAt := todoModel.CreatedAt t |} ])%list)
              [] todos in
      Some {| stored := c; issued := [mgo.CallFindAll ∅];
              written := renderer.JSON [] http.StatusOK
                (renderer.M (<["data" := renderer.Todos todoList]> ∅)) |}
  end.

Definition deleteTodo (e : Env) (r : Request) (c : list document) : option Result :=
  let id := gostrings.TrimSpace (chi.URLParam r "id") in
  if negb (bson.IsObjectIdHex id) then
    Some {| stored := c; issued := [];
            written := renderer.JSON [] http.StatusBadRequest
              (renderer.M (<["message" := renderer.Str "The id is invalid"]> ∅)) |}
  else
    match bson.ObjectIdHex id with
    | None => None
    | Some oid =>
        let '(c', err) := mgo.RemoveId (session e) c oid in
        match err with
        | Some err =>
            Some {| stored := c'; issued := [mgo.CallRemoveId oid];
                    written := renderer.JSON [] http.StatusProcessing
                      (renderer.M (<["message" := renderer.Str "Failed to delete todo"]>
                                   (<["error" := renderer.Err err]> ∅))) |}
        | None =>
            Some {| stored := c'; issued := [mgo.CallRemoveId oid];
                    written := renderer.JSON [] http.StatusOK
                      (renderer.M (<["message" := renderer.Str "Todo deleted successfully"]> ∅)) |}
        end
    end.

(** [todoHandlers]: [Get "/"], [Post "/"], [Put "/{id}"], [Delete "/{id}"]. *)
Definition todoHandlers (m : Method) : Env → Request → list document → option Result :=
  match m with
  | GET => fetchTodos
  | POST => createTodo
  | PUT => updateTodo
  | DELETE => deleteTodo
  end.

End Part000.

(** ** Notions the properties are stated with *)

(** The document carries this identifier. *)
Definition has_id (oid : bson.ObjectId) (d : document) : Prop :=
  d !! "_id" = Some (bson.VObjectId oid).

(** No two stored documents share an [_id] (the store's unique index). *)
Definition unique_ids (c : list document) : Prop :=
  NoDup ((λ d : document, d !! "_id") <$> c).

(** Every stored item, read back through [decode], has a non-empty title. *)
Definition titled (decode : document → todoModel.t) (c : list document) : Prop :=
  Forall (λ d, todoModel.Title (decode d) ≠ EmptyString) c.

(** The external representation of an item: the identifier in hex, the
    other three fields as they are. *)
Definition external (t : todoModel.t) : todo.t :=
  {| todo.ID := bson.Hex (todoModel.ID t);
     todo.Title := todoModel.Title t;
     todo.Completed := todoModel.Completed t;
     todo.CreatedAt := todoModel.CreatedAt t |}.


(** The selector and the update document [updateTodo] passes to [Update]. *)
Definition by_id (oid : bson.ObjectId) : document :=
  {[ "_id" := bson.VObjectId oid ]}.

Definition title_completed (t : todo.t) : document :=
  <["title" := bson.VString (todo.Title t)]>
  (<["completed" := bson.VBool (todo.Completed t)]> ∅).

(** One response with a [renderer.M] of a single message. *)
Definition message (status : Z) (msg : string) : list renderer.Response :=
  [ {| renderer.status := status;
       renderer.body := renderer.M (<["message" := renderer.Str msg]> ∅) |} ].

(** One response with a message and the error. *)
Definition failure (msg : string) (err : error) : list renderer.Response :=
  [ {| renderer.status := http.StatusProcessing;
       renderer.body := renderer.M (<["message" := renderer.Str msg]>
                                    (<["error" := renderer.Err err]> ∅)) |} ].

(** The response of [fetchTodos] on success. *)
Definition listing (todos : list todo.t) : list renderer.Response :=
  [ {| renderer.status := http.StatusOK;
       renderer.body := renderer.M (<["data" := renderer.Todos todos]> ∅) |} ].

(** The response of [createTodo] on success. *)
Definition created (todo_id : string) : list renderer.Response :=
  [ {| renderer.status := http.StatusCreated;
       renderer.body :=
         renderer.M (<["message" := renderer.Str "Todo created successfully"]>
                     (<["todo_id" := renderer.Str todo_id]> ∅)) |} ].

(** The [todoModel] that [createTodo] builds in its third step. *)
Definition new_item (e : Env) (t : todo.t) : todoModel.t :=
  {| todoModel.ID := bson.NewObjectId (id_source e);
     todoModel.Title := todo.Title t;
     todoModel.Completed := false;
     todoModel.CreatedAt := clock e |}.

#[global] Instance has_id_dec oid d : Decision (has_id oid d).
Proof. unfold has_id. apply _. Defined.

(** What a handler can leave of the collection [c] it found: [c] itself,
    or [c] with one document removed, or with one document added or
    replaced.  A document that is added or replaced has the non-empty
    title of the request; one that is added has an [_id] no stored document
    has, one that replaces another has the [_id] of the one replaced. *)
Definition touched (r : Request) (c c' : list document) : Prop :=
  c' = c
  ∨ (∃ i, c' = delete i c)
  ∨ (∃ t d, Body r = json.Into t ∧ todo.Title t ≠ EmptyString
            ∧ d !! "title" = Some (bson.VString (todo.Title t))
            ∧ ((c' = (c ++ [d])%list
                ∧ Forall (λ d0 : document, d0 !! "_id" ≠ d !! "_id") c)
               ∨ (∃ i d0, c !! i = Some d0 ∧ d0 !! "_id" = d !! "_id"
                          ∧ c' = <[i := d]> c))).

(** A run of the service: the requests are handled one after the other,
    each under the conditions it meets; [None] if a handler panics. *)
Fixpoint serve (handlers : Method → Env → Request → list document → option Result)
    (requests : list (Method * Env * Request)) (c : list document)
    : option (list document) :=
  match requests with
  | [] => Some c
  | (m, e, r) :: rest =>
      match handlers m e r c with
      | Some res => serve handlers rest (stored res)
      | None => None
      end
  end.

(** ** The identifier generator of the process

    [bson.NewObjectId] keeps three package-level values: [machineId] and
    [processId], set once, and [objectIdCounter], which every call
    advances. *)
Record Process := {
  proc_machineId : Z * Z * Z;
  proc_processId : Z;
  proc_objectIdCounter : Z;
}.

(** [atomic.AddUint32(&objectIdCounter, 1)]: the counter after the call. *)
Definition AddUint32 (counter : Z) : Z := (counter + 1) mod 4294967296.

(** The process after one call of [bson.NewObjectId]. *)
Definition called (p : Process) : Process :=
  {| proc_machineId := proc_machineId p;
     proc_processId := proc_processId p;
     proc_objectIdCounter := AddUint32 (proc_objectIdCounter p) |}.

(** What the call of [bson.NewObjectId] made in state [p], at the second
    [unix], reads: the counter as the call has advanced it. *)
Definition reads (p : Process) (unix : Z) : bson.IdSource :=
  {| bson.unix_seconds := unix;
     bson.machineId := proc_machineId p;
     bson.processId := proc_processId p;
     bson.objectIdCounter := AddUint32 (proc_objectIdCounter p) |}.

(** The identifier is one the process generated [k] calls before it came
    to the state [p]. *)
Definition generated_before (p : Process) (k : nat) (oid : bson.ObjectId) : Prop :=
  ∃ q unix, p = Nat.iter k called q ∧ oid = bson.NewObjectId (reads q unix).

(** Every stored document has an identifier the process generated, at most
    [n] calls before it came to the state [p]. *)
Definition aged (n : nat) (p : Process) (c : list document) : Prop :=
  Forall (λ d : document,
            ∃ k oid, (0 < k <= n)%nat ∧ generated_before p k oid ∧ has_id oid d) c.

(** The identifiers of the stored documents, in storage order. *)
Definition ids (c : list document) : list (option bson.value) :=
  (λ d : document, d !! "_id") <$> c.

(** ** Runs of one process *)

(** What a request meets besides the process: the clock, which
    [bson.NewObjectId] reads in seconds and [createTodo] reads for
    [CreatedAt], and the session. *)
Record Conditions := {
  unix : Z;
  now : time.Time;
  link : mgo.Session;
}.

Definition env_at (p : Process) (k : Conditions) : Env :=
  {| id_source := reads p (unix k); clock := now k; session := link k |}.

(** [createTodo] comes to [bson.NewObjectId()] when the body has decoded
    with a non-empty title, and then only; no other handler calls it. *)
Definition generates (m : Method) (r : Request) : bool :=
  match m, Body r with
  | POST, json.Into t => negb (bool_decide (todo.Title t = EmptyString))
  | _, _ => false
  end.

(** A run of the service in one process: as [serve], with the generator
    of identifiers carried from one request to the next. *)
Fixpoint serve_process
    (handlers : Method → Env → Request → list document → option Result)
    (requests : list (Method * Conditions * Request))
    (p : Process) (c : list document) : option (Process * list document) :=
  match requests with
  | [] => Some (p, c)
  | (m, k, r) :: rest =>
      match handlers m (env_at p k) r c with
      | Some res =>
          serve_process handlers rest (if generates m r then called p else p)
            (stored res)
      | None => None
      end
  end.

(** ** Concrete requests and collections *)
Module Sample.

Definition hexid : string := "0123456789abcdef01234567".

(** The twelve bytes [hexid] stands for. *)
Definition oid : bson.ObjectId :=
  Eval vm_compute in default EmptyString (bson.ObjectIdHex hexid).

Definition env : Env :=
  {| id_source := {| bson.unix_seconds := 1600000000;
                     bson.machineId := (1, 2, 3);
                     bson.processId := 4660;
                     bson.objectIdCounter := 70000 |};
     clock := 63870000000000;
     session := {| mgo.fault := None; mgo.server_id := EmptyString |} |}.

(** The same, with the store out of reach. *)
Definition env_down : Env :=
  {| id_source := id_source env; clock := clock env;
     session := {| mgo.fault := Some (ErrSession "no reachable servers");
                   mgo.server_id := EmptyString |} |}.

Definition request (id : string) (b : json.decoded) : Request :=
  {| URLParams := λ key, if decide (key = "id") then id else EmptyString;
     Body := b |}.

Definition body (title : string) (completed : bool) : json.decoded :=
  json.Into {| todo.ID := EmptyString; todo.Title := title;
               todo.Completed := completed; todo.CreatedAt := time.zero |}.

(** An item created earlier. *)
Definition item : todoModel.t :=
  {| todoModel.ID := oid; todoModel.Title := "Buy milk";
     todoModel.Completed := false; todoModel.CreatedAt := 63800000000000 |}.



(** The fields of a request body that marks it done. *)
Definition change : todo.t :=
  {| todo.ID := EmptyString; todo.Title := "Buy milk";
     todo.Completed := true; todo.CreatedAt := time.zero |}.

(** The document [item] becomes under that update. *)
Definition updated : document :=
  <["_id" := bson.VObjectId oid]> (title_completed change).

(** The process before its latest call of [bson.NewObjectId], and after
    it: the next call, at the second [unix_seconds] of [env], reads what
    [id_source env] holds. *)
Definition earlier : Process :=
  {| proc_machineId := (1, 2, 3); proc_processId := 4660;
     proc_objectIdCounter := 69998 |}.

Definition process : Process := called earlier.

(** The conditions of the create request that made that latest call, ten
    seconds before those of [env], and the conditions of [env]. *)
Definition before : Conditions :=
  {| unix := 1599999990; now := 63869999990000; link := session env |}.

Definition conditions : Conditions :=
  {| unix := 1600000000; now := clock env; link := session env |}.

(** The item that request created. *)
Definition previous : todoModel.t :=
  {| todoModel.ID := bson.NewObjectId (reads earlier (unix before));
     todoModel.Title := "Walk the dog"; todoModel.Completed := false;
     todoModel.CreatedAt := now before |}.

End Sample.

(** * Facts about the library functions *)

Section hex_facts.

(** Induction over strings two bytes at a time, as [hex.DecodeString]
    recurses. *)
Lemma string_pair_ind (P : string → Prop) :
  P EmptyString →
  (∀ c, P (String c EmptyString)) →
  (∀ p q rest, P rest → P (String p (String q rest))) →
  ∀ s, P s.
Proof.
  intros H0 H1 H2.
  fix IH 1. intros [|p [|q rest]].
  - exact H0.
  - apply H1.
  - apply H2, IH.
Qed.

Lemma DecodeString_length s d :
  hex.DecodeString s = Some d → String.length s = (2 * String.length d)%nat.
Proof.
  revert d. induction s as [|c|p q rest IH] using string_pair_ind; intros d; simpl.
  - intros [= <-]. reflexivity.
  - discriminate.
  - destruct (hex.fromHexChar p), (hex.fromHexChar q); try discriminate.
    destruct (hex.DecodeString rest) as [d'|]; try discriminate.
    intros [= <-]. simpl. rewrite (IH d' eq_refl). lia.
Qed.

Lemma DecodeString_digits s d :
  hex.DecodeString s = Some d →
  ∀ i c, String.get i s = Some c → is_Some (hex.fromHexChar c).
Proof.
  revert d. induction s as [|c0|p q rest IH] using string_pair_ind; intros d; simpl.
  - intros _ i c H. destruct i; discriminate.
  - discriminate.
  - destruct (hex.fromHexChar p) eqn:Hp, (hex.fromHexChar q) eqn:Hq; try discriminate.
    destruct (hex.DecodeString rest) as [d'|]; try discriminate.
    intros _ [|[|i]] c; simpl.
    + intros [= <-]. rewrite Hp. eauto.
    + intros [= <-]. rewrite Hq. eauto.
    + apply (IH d' eq_refl).
Qed.

(** A hexadecimal digit is an ASCII byte and is not white space. *)
Lemma fromHexChar_plain c :
  is_Some (hex.fromHexChar c) →
  byte_val c < 128 ∧ unicode.IsSpace (byte_val c) = false.
Proof.
  unfold hex.fromHexChar, unicode.IsSpace. intros [v Hv].
  assert (0 <= byte_val c) by (unfold byte_val; lia).
  repeat match type of Hv with
         | context [if ?b then _ else _] => destruct b eqn:?
         end; try discriminate;
    split; try lia;
    repeat match goal with
           | |- context [if ?b then _ else _] => destruct b eqn:?
           end; lia.
Qed.

(** The two digits of a byte decode to the byte. *)
Lemma byte_digits c :
  let b := byte_val c in
  hex.fromHexChar (hex.digit (Z.shiftr b 4)) = Some (Z.shiftr b 4)
  ∧ hex.fromHexChar (hex.digit (Z.land b 15)) = Some (Z.land b 15)
  ∧ byte_of (Z.lor (Z.shiftl (Z.shiftr b 4) 4) (Z.land b 15)) = c.
Proof. destruct c as [[] [] [] [] [] [] [] []]; vm_compute; done. Qed.

Lemma DecodeString_EncodeToString s :
  hex.DecodeString (hex.EncodeToString s) = Some s.
Proof.
  induction s as [|c s IH]; [reflexivity|].
  destruct (byte_digits c) as (Hhi & Hlo & Hc). cbv zeta in Hhi, Hlo, Hc.
  cbn [hex.EncodeToString hex.DecodeString].
  by rewrite Hhi, Hlo, IH, Hc.
Qed.

Lemma EncodeToString_length s :
  String.length (hex.EncodeToString s) = (2 * String.length s)%nat.
Proof. induction s as [|c s IH]; simpl; [reflexivity | rewrite IH; lia]. Qed.

End hex_facts.

Section trim_facts.

(** The count of [utf8.scan_back] is no limit on the loop: any count above
    the distance to [lim] gives the same index, and the four that
    [DecodeLastRuneInString] allows are above it. *)
Lemma scan_back_enough k k' s lim start :
  start - lim < Z.of_nat k → start - lim < Z.of_nat k' →
  utf8.scan_back k s lim start = utf8.scan_back k' s lim start.
Proof.
  revert k' start. induction k as [|k IH]; intros [|k'] start Hk Hk';
    cbn [utf8.scan_back]; try reflexivity.
  - replace (start <? lim) with true by lia. reflexivity.
  - replace (start <? lim) with true by lia. reflexivity.
  - destruct (start <? lim) eqn:Hlim; [reflexivity|].
    destruct (utf8.RuneStart _); [reflexivity|]. apply IH; lia.
Qed.

Lemma scan_back_four k s e :
  (4 <= k)%nat →
  utf8.scan_back k s (Z.max 0 (e - utf8.UTFMax)) (e - 1 - 1)
  = utf8.scan_back 4 s (Z.max 0 (e - utf8.UTFMax)) (e - 1 - 1).
Proof. intros Hk. apply scan_back_enough; unfold utf8.UTFMax; lia. Qed.

Lemma substring_full s : String.substring 0 (String.length s) s = s.
Proof. induction s as [|c s IH]; simpl; [reflexivity | by rewrite IH]. Qed.

Lemma slice_full s : slice s 0 (String.length s) = s.
Proof. unfold slice. rewrite Nat.sub_0_r. apply substring_full. Qed.

(** An ASCII byte decodes to itself, forwards and backwards. *)
Lemma DecodeRuneInString_ascii c rest :
  byte_val c < 128 →
  utf8.DecodeRuneInString (String c rest) = (byte_val c, 1%nat).
Proof.
  intros Hc. unfold utf8.DecodeRuneInString, utf8.first, byte_at. simpl.
  destruct (byte_val c <? 128) eqn:E; [reflexivity | lia].
Qed.

Lemma DecodeLastRuneInString_ascii s n :
  String.length s = S n →
  byte_at s n < 128 →
  utf8.DecodeLastRuneInString s = (byte_at s n, 1%nat).
Proof.
  intros Hlen Hc. unfold utf8.DecodeLastRuneInString, utf8.RuneSelf.
  rewrite Hlen.
  replace (Z.to_nat (Z.of_nat (S n) - 1)) with n by lia.
  destruct (Z.of_nat (S n) =? 0) eqn:E0; [apply Z.eqb_eq in E0; lia|].
  destruct (byte_at s n <? 128) eqn:E; [reflexivity | apply Z.ltb_ge in E; lia].
Qed.

Lemma TrimLeftFunc_keeps c rest :
  byte_val c < 128 →
  unicode.IsSpace (byte_val c) = false →
  gostrings.TrimLeftFunc (String c rest) unicode.IsSpace = String c rest.
Proof.
  intros Hc Hsp. unfold gostrings.TrimLeftFunc, gostrings.indexFunc.
  cbn [gostrings.indexFunc_at].
  rewrite DecodeRuneInString_ascii by done. rewrite Hsp. cbn [Bool.eqb Z.of_nat].
  change (0 =? -1) with false. cbv iota. apply slice_full.
Qed.

Lemma lastIndexFunc_keeps s n :
  String.length s = S n →
  byte_at s n < 128 →
  unicode.IsSpace (byte_at s n) = false →
  gostrings.lastIndexFunc s unicode.IsSpace false = Z.of_nat n.
Proof.
  intros Hlen Hc Hsp. unfold gostrings.lastIndexFunc.
  rewrite Hlen. cbn [gostrings.lastIndexFunc_at].
  replace (slice s 0 (S n)) with s by (rewrite <- Hlen; symmetry; apply slice_full).
  rewrite (DecodeLastRuneInString_ascii s n) by done.
  rewrite Hsp. cbn [Bool.eqb]. f_equal. lia.
Qed.

Lemma TrimRightFunc_keeps s n :
  String.length s = S n →
  byte_at s n < 128 →
  unicode.IsSpace (byte_at s n) = false →
  gostrings.TrimRightFunc s unicode.IsSpace = s.
Proof.
  intros Hlen Hc Hsp. unfold gostrings.TrimRightFunc.
  rewrite (lastIndexFunc_keeps s n) by done.
  rewrite Nat2Z.id.
  replace (utf8.RuneSelf <=? byte_at s n) with false
    by (unfold utf8.RuneSelf; symmetry; apply Z.leb_gt; lia).
  rewrite andb_false_r.
  replace (Z.to_nat (Z.of_nat n + 1)) with (String.length s) by lia.
  apply slice_full.
Qed.

Lemma get_is_Some s i : (i < String.length s)%nat → is_Some (String.get i s).
Proof.
  revert i. induction s as [|c s IH]; intros i; simpl; [lia|].
  destruct i; [eauto | intros; apply IH; lia].
Qed.

(** A well-formed identifier has no white space to trim. *)
Lemma TrimSpace_IsObjectIdHex s :
  bson.IsObjectIdHex s = true → gostrings.TrimSpace s = s.
Proof.
  unfold bson.IsObjectIdHex. intros H.
  destruct (String.length s =? 24)%nat eqn:Hlen; [|discriminate].
  apply Nat.eqb_eq in Hlen. simpl in H.
  destruct (hex.DecodeString s) as [d|] eqn:Hd; [|discriminate].
  pose proof (DecodeString_digits s d Hd) as Hdig.
  unfold gostrings.TrimSpace, gostrings.TrimFunc.
  destruct (get_is_Some s 23) as [c' Hc']; [lia|].
  destruct (fromHexChar_plain c') as [Hl1 Hl2]; [by apply (Hdig 23%nat)|].
  destruct s as [|c rest]; [discriminate|].
  destruct (fromHexChar_plain c) as [Hc1 Hc2]; [by apply (Hdig 0%nat)|].
  rewrite TrimLeftFunc_keeps by done.
  apply (TrimRightFunc_keeps _ 23); [done | |]; unfold byte_at; by rewrite Hc'.
Qed.

End trim_facts.

Section bson_facts.

Lemma ObjectIdHex_IsObjectIdHex s :
  bson.IsObjectIdHex s = true → is_Some (bson.ObjectIdHex s).
Proof.
  unfold bson.IsObjectIdHex, bson.ObjectIdHex. intros H.
  destruct (String.length s =? 24)%nat eqn:Hlen; [|discriminate].
  apply Nat.eqb_eq in Hlen. simpl in H.
  destruct (hex.DecodeString s) as [d|] eqn:Hd; [|discriminate].
  apply DecodeString_length in Hd.
  replace (String.length d =? 12)%nat with true; [eauto|].
  symmetry. apply Nat.eqb_eq. lia.
Qed.

(** Identifiers survive the trip through their hex form. *)
Lemma ObjectIdHex_Hex (o : bson.ObjectId) :
  String.length o = 12%nat →
  bson.IsObjectIdHex (bson.Hex o) = true ∧ bson.ObjectIdHex (bson.Hex o) = Some o.
Proof.
  intros Hlen. unfold bson.IsObjectIdHex, bson.ObjectIdHex, bson.Hex.
  rewrite EncodeToString_length, DecodeString_EncodeToString, Hlen. done.
Qed.

Lemma NewObjectId_length g : String.length (bson.NewObjectId g) = 12%nat.
Proof. unfold bson.NewObjectId. by destruct (bson.machineId g) as [[m0 m1] m2]. Qed.

End bson_facts.

Section padding_facts.

















End padding_facts.

Section mgo_facts.

Lemma matches_by_id oid d : mgo.matches (by_id oid) d ↔ has_id oid d.
Proof.
  unfold mgo.matches, by_id, has_id.
  apply (map_Forall_singleton (λ k v, d !! k = Some v)).
Qed.

Lemma filter_matches_all (c : list document) : filter (mgo.matches ∅) c = c.
Proof.
  induction c as [|d c IH]; [done|].
  rewrite filter_cons_True by apply map_Forall_empty. by rewrite IH.
Qed.

(** What a stored item becomes under [updateTodo]'s update document. *)
Lemma replacement_title_completed d oid t :
  has_id oid d →
  mgo.replacement d (title_completed t)
  = inl (<["_id" := bson.VObjectId oid]> (title_completed t)).
Proof. unfold mgo.replacement, has_id. intros ->. reflexivity. Qed.

Lemma Update_found s c oid t i d :
  mgo.fault s = None →
  list_find (mgo.matches (by_id oid)) c = Some (i, d) →
  mgo.Update s c (by_id oid) (title_completed t)
  = (<[i := <["_id" := bson.VObjectId oid]> (title_completed t)]> c, None).
Proof.
  intros Hs Hf. unfold mgo.Update. rewrite Hs, Hf.
  apply list_find_Some in Hf as (_ & Hm%matches_by_id & _).
  by rewrite (replacement_title_completed d oid t).
Qed.

Lemma Update_missing s c oid upd :
  mgo.fault s = None →
  list_find (mgo.matches (by_id oid)) c = None →
  mgo.Update s c (by_id oid) upd = (c, Some ErrNotFound).
Proof. intros Hs Hf. unfold mgo.Update. by rewrite Hs, Hf. Qed.

Lemma Update_fault s c sel upd err :
  mgo.fault s = Some err → mgo.Update s c sel upd = (c, Some err).
Proof. intros Hs. unfold mgo.Update. by rewrite Hs. Qed.

(** The updated document still matches its selector, and is the first
    to do so. *)
Lemma list_find_updated c oid i d d' :
  list_find (mgo.matches (by_id oid)) c = Some (i, d) →
  has_id oid d' →
  list_find (mgo.matches (by_id oid)) (<[i := d']> c) = Some (i, d').
Proof.
  intros (Hi & Hm & Hleast)%list_find_Some Hd'.
  apply list_find_Some. split_and!.
  - apply list_lookup_insert_eq. eauto using lookup_lt_Some.
  - by apply matches_by_id.
  - intros j y Hj Hlt. rewrite list_lookup_insert_ne in Hj by lia. eauto.
Qed.

(** [Update] with the same selector and update document, applied to its
    own result, changes nothing: provided the first call reached the
    store, or the second meets the session as the first did. *)
Lemma Update_twice s1 s2 c oid t :
  mgo.fault s1 = None ∨ mgo.fault s2 = mgo.fault s1 →
  let once := (mgo.Update s1 c (by_id oid) (title_completed t)).1 in
  (mgo.Update s2 once (by_id oid) (title_completed t)).1 = once.
Proof.
  intros Hs. cbv zeta.
  destruct (mgo.fault s1) as [err1|] eqn:Hs1.
  { destruct Hs as [|Hs2]; [done|].
    by rewrite (Update_fault s1 _ _ _ err1), (Update_fault s2 _ _ _ err1). }
  clear Hs.
  destruct (list_find (mgo.matches (by_id oid)) c) as [[i d]|] eqn:Hf.
  - rewrite (Update_found s1 c oid t i d) by done. cbn [fst].
    destruct (mgo.fault s2) as [err|] eqn:Hs2.
    + by rewrite (Update_fault s2 _ _ _ err).
    + erewrite Update_found; [| done |].
      2:{ eapply list_find_updated; [done|]. unfold has_id. by simplify_map_eq. }
      cbn [fst]. apply list_insert_insert_eq.
  - rewrite (Update_missing s1) by done. cbn [fst].
    destruct (mgo.fault s2) as [err|] eqn:Hs2.
    + by rewrite (Update_fault s2 _ _ _ err).
    + by rewrite Update_missing.
Qed.

End mgo_facts.

(** * The handlers, path by path *)

(** Runs a handler along the path the hypotheses select. *)
Ltac run_handler h :=
  intros; unfold h, by_id, title_completed;
  repeat match goal with
         | H : bson.IsObjectIdHex _ = _ |- _ => rewrite H
         | H : bson.ObjectIdHex _ = _ |- _ => rewrite H
         | H : Body _ = _ |- _ => rewrite H
         end;
  cbn [negb];
  repeat case_decide; try congruence;
  repeat match goal with
         | |- context [let '(_, _) := ?p in _] => destruct p as [? [?|]]
         end;
  try reflexivity.

Section update_paths.
Context (e : Env) (r : Request) (c : list document).

Let id := gostrings.TrimSpace (chi.URLParam r "id").

Lemma Main_updateTodo_invalid_id :
  bson.IsObjectIdHex id = false →
  Main.updateTodo e r c
  = Some {| stored := c; issued := [];
            written := message http.StatusBadRequest "The ID is invalid" |}.
Proof. subst id. run_handler Main.updateTodo. Qed.

Lemma Part000_updateTodo_invalid_id :
  bson.IsObjectIdHex id = false →
  Part000.updateTodo e r c
  = Some {| stored := c; issued := [];
            written := message http.StatusBadRequest "The id is invalid" |}.
Proof. subst id. run_handler Part000.updateTodo. Qed.

Lemma Main_updateTodo_undecodable err :
  bson.IsObjectIdHex id = true →
  Body r = json.Failed err →
  Main.updateTodo e r c
  = Some {| stored := c; issued := [];
            written := [ {| renderer.status := http.StatusProcessing;
                            renderer.body := renderer.Plain err |} ] |}.
Proof. subst id. run_handler Main.updateTodo. Qed.

Lemma Part000_updateTodo_undecodable err :
  bson.IsObjectIdHex id = true →
  Body r = json.Failed err →
  Part000.updateTodo e r c
  = Some {| stored := c; issued := [];
            written := [ {| renderer.status := http.StatusProcessing;
                            renderer.body := renderer.Plain err |} ] |}.
Proof. subst id. run_handler Part000.updateTodo. Qed.

Lemma Main_updateTodo_empty_title t :
  bson.IsObjectIdHex id = true →
  Body r = json.Into t →
  todo.Title t = EmptyString →
  Main.updateTodo e r c
  = Some {| stored := c; issued := [];
            written := message http.StatusBadRequest "The Title field is required" |}.
Proof. subst id. run_handler Main.updateTodo. Qed.

Lemma Part000_updateTodo_empty_title t :
  bson.IsObjectIdHex id = true →
  Body r = json.Into t →
  todo.Title t = EmptyString →
  Part000.updateTodo e r c
  = Some {| stored := c; issued := [];
            written := message http.StatusBadRequest "The title field is required" |}.
Proof. subst id. run_handler Part000.updateTodo. Qed.

(** Past the three checks the handler calls [Update]; what it answers
    depends on the error [Update] returns. *)
Lemma Main_updateTodo_passes oid t :
  bson.IsObjectIdHex id = true →
  bson.ObjectIdHex id = Some oid →
  Body r = json.Into t →
  todo.Title t ≠ EmptyString →
  Main.updateTodo e r c
  = let '(c', err) := mgo.Update (session e) c (by_id oid) (title_completed t) in
    Some {| stored := c';
            issued := [mgo.CallUpdate (by_id oid) (title_completed t)];
            written := match err with
                       | Some _ => message http.StatusProcessing "Failed to update todo"
                       | None => []
                       end |}.
Proof.
  subst id. run_handler Main.updateTodo.
Qed.

Lemma Part000_updateTodo_passes oid t :
  bson.IsObjectIdHex id = true →
  bson.ObjectIdHex id = Some oid →
  Body r = json.Into t →
  todo.Title t ≠ EmptyString →
  Part000.updateTodo e r c
  = let '(c', err) := mgo.Update (session e) c (by_id oid) (title_completed t) in
    Some {| stored := c';
            issued := [mgo.CallUpdate (by_id oid) (title_completed t)];
            written := match err with
                       | Some err => failure "Failed to update todo" err
                       | None => message http.StatusOK "Todo updated successfully"
                       end |}.
Proof.
  subst id. run_handler Part000.updateTodo.
Qed.

End update_paths.

Section other_paths.
Context (e : Env) (r : Request) (c : list document).

Let id := gostrings.TrimSpace (chi.URLParam r "id").

Lemma Main_deleteTodo_invalid_id :
  bson.IsObjectIdHex id = false →
  Main.deleteTodo e r c
  = Some {| stored := c; issued := [];
            written := message http.StatusBadRequest "The ID is invalid" |}.
Proof. subst id. run_handler Main.deleteTodo. Qed.

Lemma Part000_deleteTodo_invalid_id :
  bson.IsObjectIdHex id = false →
  Part000.deleteTodo e r c
  = Some {| stored := c; issued := [];
            written := message http.StatusBadRequest "The id is invalid" |}.
Proof. subst id. run_handler Part000.deleteTodo. Qed.

Lemma Main_deleteTodo_passes oid :
  bson.IsObjectIdHex id = true →
  bson.ObjectIdHex id = Some oid →
  Main.deleteTodo e r c
  = let '(c', err) := mgo.RemoveId (session e) c oid in
    Some {| stored := c'; issued := [mgo.CallRemoveId oid];
            written := match err with
                       | Some err => failure "Failed to delete todo" err
                       | None => message http.StatusOK "Todo deleted successfully"
                       end |}.
Proof. subst id. run_handler Main.deleteTodo. Qed.

Lemma Part000_deleteTodo_passes oid :
  bson.IsObjectIdHex id = true →
  bson.ObjectIdHex id = Some oid →
  Part000.deleteTodo e r c
  = let '(c', err) := mgo.RemoveId (session e) c oid in
    Some {| stored := c'; issued := [mgo.CallRemoveId oid];
            written := match err with
                       | Some err => failure "Failed to delete todo" err
                       | None => message http.StatusOK "Todo deleted successfully"
                       end |}.
Proof. subst id. run_handler Part000.deleteTodo. Qed.

Lemma Main_createTodo_undecodable err :
  Body r = json.Failed err →
  Main.createTodo e r c
  = Some {| stored := c; issued := [];
            written := [ {| renderer.status := http.StatusProcessing;
                            renderer.body := renderer.Plain err |} ] |}.
Proof. run_handler Main.createTodo. Qed.

Lemma Part000_createTodo_undecodable err :
  Body r = json.Failed err →
  Part000.createTodo e r c
  = Some {| stored := c; issued := [];
            written := [ {| renderer.status := http.StatusProcessing;
                            renderer.body := renderer.Plain err |} ] |}.
Proof. run_handler Part000.createTodo. Qed.

Lemma Main_createTodo_empty_title t :
  Body r = json.Into t →
  todo.Title t = EmptyString →
  Main.createTodo e r c
  = Some {| stored := c; issued := [];
            written := message http.StatusBadRequest "The title is required" |}.
Proof. run_handler Main.createTodo. Qed.

Lemma Part000_createTodo_empty_title t :
  Body r = json.Into t →
  todo.Title t = EmptyString →
  Part000.createTodo e r c
  = Some {| stored := c; issued := [];
            written := message http.StatusBadRequest "The title field is important" |}.
Proof. run_handler Part000.createTodo. Qed.

Lemma Main_createTodo_passes t :
  Body r = json.Into t →
  todo.Title t ≠ EmptyString →
  Main.createTodo e r c
  = let doc := Main.Marshal (new_item e t) in
    let '(c', err) := mgo.Insert (session e) c doc in
    Some {| stored := c'; issued := [mgo.CallInsert doc];
            written := match err with
                       | Some err => failure "Failed to save todo" err
                       | None => created (bson.Hex (bson.NewObjectId (id_source e)))
                       end |}.
Proof. unfold new_item. run_handler Main.createTodo. Qed.

Lemma Part000_createTodo_passes t :
  Body r = json.Into t →
  todo.Title t ≠ EmptyString →
  Part000.createTodo e r c
  = let doc := Part000.Marshal (new_item e t) in
    let '(c', err) := mgo.Insert (session e) c doc in
    Some {| stored := c'; issued := [mgo.CallInsert doc];
            written := match err with
                       | Some err => failure "Failed to save todo" err
                       | None => created (bson.Hex (bson.NewObjectId (id_source e)))
                       end |}.
Proof. unfold new_item. run_handler Part000.createTodo. Qed.

(** The loop of [fetchTodos] maps [external] over the items. *)
Lemma todoList_loop (todos : list todoModel.t) (acc : list todo.t) :
  foldl (λ todoList t,
           (todoList ++ [ {| todo.ID := bson.Hex (todoModel.ID t);
                             todo.Title := todoModel.Title t;
                             todo.Completed := todoModel.Completed t;
                             todo.CreatedAt := todoModel.CreatedAt t |} ])%list)
        acc todos
  = (acc ++ (external <$> todos))%list.
Proof.
  revert acc. induction todos as [|t todos IH]; intros acc; simpl.
  - by rewrite app_nil_r.
  - rewrite IH. by rewrite <- app_assoc.
Qed.

Lemma Main_fetchTodos_paths :
  Main.fetchTodos e r c
  = let '(todos, err) := mgo.FindAll Main.Unmarshal (session e) c ∅ in
    Some {| stored := c; issued := [mgo.CallFindAll ∅];
            written := match err with
                       | Some err => failure "Failed to fetch todo" err
                       | None => listing (external <$> todos)
                       end |}.
Proof.
  unfold Main.fetchTodos.
  destruct (mgo.FindAll _ _ _ _) as [todos [err|]]; [reflexivity|].
  by rewrite todoList_loop.
Qed.

Lemma Part000_fetchTodos_paths :
  Part000.fetchTodos e r c
  = let '(todos, err) := mgo.FindAll Part000.Unmarshal (session e) c ∅ in
    Some {| stored := c; issued := [mgo.CallFindAll ∅];
            written := match err with
                       | Some err => failure "Failed to fetch todo" err
                       | None => listing (external <$> todos)
                       end |}.
Proof.
  unfold Part000.fetchTodos.
  destruct (mgo.FindAll _ _ _ _) as [todos [err|]]; [reflexivity|].
  by rewrite todoList_loop.
Qed.

End other_paths.

Section store_facts.

Lemma NewObjectId_nonempty g : bson.NewObjectId g ≠ EmptyString.
Proof. unfold bson.NewObjectId. destruct (bson.machineId g) as [[m0 m1] m2]. discriminate. Qed.

(** The document of a marshalled item with an identifier. *)
Lemma Marshal_fields key tm :
  key ≠ "_id" → key ≠ "title" → key ≠ "completed" →
  todoModel.ID tm ≠ EmptyString →
  let doc := bson_struct.Marshal key tm in
  doc !! "_id" = Some (bson.VObjectId (todoModel.ID tm))
  ∧ doc !! "title" = Some (bson.VString (todoModel.Title tm))
  ∧ doc !! "completed" = Some (bson.VBool (todoModel.Completed tm))
  ∧ doc !! key = Some (bson.VTime (todoModel.CreatedAt tm)).
Proof.
  intros ? ? ? Hid. unfold bson_struct.Marshal. cbv zeta.
  case_decide; [done|]. split_and!; by simplify_map_eq.
Qed.

(** [Insert] returns no error only when it has appended the document and
    no stored document had its [_id]. *)
Lemma Insert_succeeds s c doc oid c' :
  doc !! "_id" = Some (bson.VObjectId oid) →
  mgo.Insert s c doc = (c', None) →
  mgo.fault s = None ∧ c' = (c ++ [doc])%list ∧ Forall (λ d, ¬ has_id oid d) c.
Proof.
  unfold mgo.Insert. intros Hid.
  destruct (mgo.fault s); [discriminate|]. rewrite Hid.
  destruct (list_find _ c) as [[i d]|] eqn:Hf; [discriminate|].
  intros [= <-]. split_and!; [done..|].
  apply list_find_None in Hf. eapply Forall_impl; [exact Hf|].
  unfold has_id. intros d Hne Hd. apply Hne. congruence.
Qed.

(** And it does so whenever the session works and the [_id] is unused. *)
Lemma Insert_fresh s c doc oid :
  doc !! "_id" = Some (bson.VObjectId oid) →
  mgo.fault s = None →
  Forall (λ d, ¬ has_id oid d) c →
  mgo.Insert s c doc = ((c ++ [doc])%list, None).
Proof.
  unfold mgo.Insert. intros Hid -> Hfresh. rewrite Hid.
  assert (list_find (λ d : document, d !! "_id" = doc !! "_id") c = None) as ->; [|done].
  apply list_find_None. eapply Forall_impl; [exact Hfresh|].
  unfold has_id. intros d Hne Hd. apply Hne. congruence.
Qed.

Lemma Insert_stored s c doc :
  ∃ doc', (doc' = doc ∨ ∃ oid, doc' = <["_id" := bson.VObjectId oid]> doc)
          ∧ ((mgo.Insert s c doc).1 = c
             ∨ ((mgo.Insert s c doc).1 = (c ++ [doc'])%list
                ∧ Forall (λ d0 : document, d0 !! "_id" ≠ doc' !! "_id") c)).
Proof.
  unfold mgo.Insert. destruct (mgo.fault s); [exists doc; eauto|].
  destruct (doc !! "_id") eqn:Hid.
  - exists doc. split; [eauto|].
    destruct (list_find _ c) eqn:Hf; [eauto|]. right. split; [done|].
    by apply list_find_None in Hf.
  - eexists. split; [right; eauto|].
    destruct (list_find _ c) eqn:Hf; [eauto|]. right. split; [done|].
    by apply list_find_None in Hf.
Qed.

Lemma list_find_by_id oid (c : list document) :
  list_find (mgo.matches (by_id oid)) c = list_find (has_id oid) c.
Proof. apply list_find_ext, matches_by_id. Qed.

Lemma RemoveId_found s c oid i d :
  mgo.fault s = None →
  list_find (has_id oid) c = Some (i, d) →
  mgo.RemoveId s c oid = (delete i c, None).
Proof.
  intros Hs Hf. unfold mgo.RemoveId, mgo.Remove. rewrite Hs.
  change ({[ "_id" := bson.VObjectId oid ]} : document) with (by_id oid).
  by rewrite list_find_by_id, Hf.
Qed.

Lemma RemoveId_missing s c oid :
  mgo.fault s = None →
  list_find (has_id oid) c = None →
  mgo.RemoveId s c oid = (c, Some ErrNotFound).
Proof.
  intros Hs Hf. unfold mgo.RemoveId, mgo.Remove. rewrite Hs.
  change ({[ "_id" := bson.VObjectId oid ]} : document) with (by_id oid).
  by rewrite list_find_by_id, Hf.
Qed.

Lemma RemoveId_fault s c oid err :
  mgo.fault s = Some err → mgo.RemoveId s c oid = (c, Some err).
Proof. intros Hs. unfold mgo.RemoveId, mgo.Remove. by rewrite Hs. Qed.

Lemma RemoveId_stored s c oid :
  (mgo.RemoveId s c oid).1 = c ∨ ∃ i, (mgo.RemoveId s c oid).1 = delete i c.
Proof.
  unfold mgo.RemoveId, mgo.Remove. destruct (mgo.fault s); [eauto|].
  destruct (list_find _ c) as [[i d]|]; eauto.
Qed.

Lemma Update_stored s c oid t :
  (mgo.Update s c (by_id oid) (title_completed t)).1 = c
  ∨ ∃ i d0, c !! i = Some d0 ∧ has_id oid d0
      ∧ (mgo.Update s c (by_id oid) (title_completed t)).1
        = <[i := <["_id" := bson.VObjectId oid]> (title_completed t)]> c.
Proof.
  destruct (mgo.fault s) as [err|] eqn:Hs.
  { rewrite (Update_fault s _ _ _ err) by done. eauto. }
  destruct (list_find (mgo.matches (by_id oid)) c) as [[i d]|] eqn:Hf.
  - rewrite (Update_found s c oid t i d) by done.
    apply list_find_Some in Hf as (Hi & Hd%matches_by_id & _). eauto 10.
  - rewrite Update_missing by done. eauto.
Qed.

(** With unique identifiers, removing the document at [i] leaves none
    with its identifier. *)
Lemma unique_ids_delete (c : list document) i d oid :
  unique_ids c →
  c !! i = Some d →
  has_id oid d →
  Forall (λ d', ¬ has_id oid d') (delete i c).
Proof.
  unfold unique_ids, has_id. intros Hnd Hi Hd.
  rewrite <- (take_drop_middle c i d Hi) in Hnd.
  rewrite fmap_app, fmap_cons in Hnd.
  apply NoDup_app in Hnd as (_ & Hl & [Hr _]%NoDup_cons).
  rewrite delete_take_drop. apply Forall_app. split; apply Forall_forall.
  - intros d' Hd' Heq. apply (Hl (d' !! "_id")).
    + apply list_elem_of_fmap. eauto.
    + rewrite Heq, <- Hd. left.
  - intros d' Hd' Heq. apply Hr. rewrite Hd, <- Heq.
    apply list_elem_of_fmap. eauto.
Qed.

Lemma FindAll_all {T} (decode : document → T) s c :
  mgo.fault s = None →
  mgo.FindAll decode s c ∅ = (decode <$> c, None).
Proof. intros Hs. unfold mgo.FindAll. by rewrite Hs, filter_matches_all. Qed.

End store_facts.


(** * All the paths of a handler *)

(** Splits a goal about a handler into its paths: the identifier check, the
    decoding of the body, the title check and the outcome of the store
    call.  [bson.ObjectIdHex] is met only behind the identifier check. *)
Ltac paths :=
  unfold Main.todoHandlers, Part000.todoHandlers,
    Main.fetchTodos, Main.createTodo, Main.updateTodo, Main.deleteTodo,
    Part000.fetchTodos, Part000.createTodo, Part000.updateTodo, Part000.deleteTodo;
  repeat first
    [ match goal with
      | H : bson.IsObjectIdHex ?s = true |- context [bson.ObjectIdHex ?s] =>
          let oid := fresh "oid" in
          let Hoid := fresh "Hoid" in
          destruct (ObjectIdHex_IsObjectIdHex s H) as [oid Hoid]; rewrite Hoid
      end
    | match goal with
      | |- context [bson.IsObjectIdHex ?s] =>
          destruct (bson.IsObjectIdHex s) eqn:?; cbn [negb]
      | |- context [Body ?r] => destruct (Body r) eqn:?
      | |- context [decide (todo.Title ?t = EmptyString)] =>
          destruct (decide (todo.Title t = EmptyString))
      | |- context [mgo.Update ?s ?c ?sel ?upd] =>
          destruct (mgo.Update s c sel upd) as [? [?|]] eqn:?
      | |- context [mgo.Insert ?s ?c ?doc] =>
          destruct (mgo.Insert s c doc) as [? [?|]] eqn:?
      | |- context [mgo.RemoveId ?s ?c ?oid] =>
          destruct (mgo.RemoveId s c oid) as [? [?|]] eqn:?
      | |- context [mgo.FindAll ?dec ?s ?c ?sel] =>
          destruct (mgo.FindAll dec s c sel) as [? [?|]] eqn:?
      end ];
  cbv beta iota zeta.

Section store_errors.

(** A call that returns an error has left the collection as it was. *)
Lemma Insert_error s c doc c' err :
  mgo.Insert s c doc = (c', Some err) → c' = c.
Proof.
  unfold mgo.Insert. destruct (mgo.fault s); [by intros [= <-]|].
  destruct (list_find _ c); by intros [= <-].
Qed.

Lemma Update_error s c sel upd c' err :
  mgo.Update s c sel upd = (c', Some err) → c' = c.
Proof.
  unfold mgo.Update. destruct (mgo.fault s); [by intros [= <-]|].
  destruct (list_find _ c) as [[i d]|]; [|by intros [= <-]].
  destruct (mgo.replacement d upd); by intros [= <-].
Qed.

Lemma RemoveId_error s c oid c' err :
  mgo.RemoveId s c oid = (c', Some err) → c' = c.
Proof.
  unfold mgo.RemoveId, mgo.Remove. destruct (mgo.fault s); [by intros [= <-]|].
  destruct (list_find _ c) as [[i d]|]; by intros [= <-].
Qed.

End store_errors.

Section frames.

Lemma Update_frame s c oid t c' err :
  mgo.Update s c (by_id oid) (title_completed t) = (c', err) →
  length c' = length c ∧ ids c' = ids c
  ∧ ∃ i, ∀ j, j ≠ i → c' !! j = c !! j.
Proof.
  intros Hupd.
  destruct (Update_stored s c oid t) as [Hc | (i & d0 & Hi & Hd0 & Hc)];
    rewrite Hupd in Hc; cbn [fst] in Hc; subst c'.
  - split_and!; [done | done | by exists 0%nat].
  - split_and!.
    + apply length_insert.
    + unfold ids. rewrite list_fmap_insert. apply list_insert_id.
      rewrite list_lookup_fmap, Hi. cbn. rewrite Hd0. by simplify_map_eq.
    + exists i. intros j Hj. by apply list_lookup_insert_ne.
Qed.

Lemma RemoveId_frame s c oid c' err :
  mgo.RemoveId s c oid = (c', err) →
  (c' = c ∧ is_Some err)
  ∨ (∃ i d, c !! i = Some d ∧ has_id oid d ∧ c' = delete i c ∧ err = None).
Proof.
  unfold mgo.RemoveId, mgo.Remove.
  destruct (mgo.fault s); [intros [= <- <-]; eauto|].
  change ({[ "_id" := bson.VObjectId oid ]} : document) with (by_id oid).
  rewrite list_find_by_id.
  destruct (list_find _ c) as [[i d]|] eqn:Hf; intros [= <- <-]; [|eauto].
  apply list_find_Some in Hf as (Hi & Hd & _). right. eauto 10.
Qed.

End frames.

(** * Identifiers are fresh *)

Section generator_facts.

Lemma byte_of_inj a b : byte_of a = byte_of b → a mod 256 = b mod 256.
Proof.
  unfold byte_of. intros H. apply (f_equal Ascii.N_of_ascii) in H.
  pose proof (Z.mod_pos_bound a 256 eq_refl).
  pose proof (Z.mod_pos_bound b 256 eq_refl).
  rewrite !Ascii.N_ascii_embedding in H by lia. lia.
Qed.

(** The three counter bytes of an identifier are the low 24 bits of the
    counter. *)
Lemma low24_bytes i j :
  (Z.shiftr i 16) mod 256 = (Z.shiftr j 16) mod 256 →
  (Z.shiftr i 8) mod 256 = (Z.shiftr j 8) mod 256 →
  i mod 256 = j mod 256 →
  i mod 16777216 = j mod 16777216.
Proof.
  rewrite !Z.shiftr_div_pow2 by lia.
  change (2 ^ 16) with 65536. change (2 ^ 8) with 256.
  intros H2 H1 H0. Z.div_mod_to_equations. lia.
Qed.

Lemma NewObjectId_counter g g' :
  bson.NewObjectId g = bson.NewObjectId g' →
  bson.objectIdCounter g mod 16777216 = bson.objectIdCounter g' mod 16777216.
Proof.
  unfold bson.NewObjectId.
  destruct (bson.machineId g) as [[m0 m1] m2], (bson.machineId g') as [[m0' m1'] m2'].
  intros [= _ _ _ _ _ _ _ _ _ H2 H1 H0].
  apply low24_bytes; by apply byte_of_inj.
Qed.

Lemma called_counter k q :
  (0 < k)%nat →
  proc_objectIdCounter (Nat.iter k called q)
  = (proc_objectIdCounter q + Z.of_nat k) mod 4294967296.
Proof.
  induction k as [|k IH]; [lia|]. intros _.
  change (Nat.iter (S k) called q) with (called (Nat.iter k called q)).
  cbn [called proc_objectIdCounter]. unfold AddUint32. destruct k as [|k].
  - reflexivity.
  - rewrite IH by lia. rewrite Zplus_mod_idemp_l. f_equal. lia.
Qed.

(** An identifier generated now differs from each of those the process
    generated in its last 16777215 calls, whatever the clock showed. *)
Lemma NewObjectId_fresh p k unix oid :
  0 < Z.of_nat k < 16777216 →
  generated_before p k oid →
  bson.NewObjectId (reads p unix) ≠ oid.
Proof.
  intros Hk (q & unix' & -> & ->) Heq.
  apply NewObjectId_counter in Heq. cbn [reads bson.objectIdCounter] in Heq.
  rewrite called_counter in Heq by lia. unfold AddUint32 in Heq.
  rewrite Zplus_mod_idemp_l in Heq.
  revert Heq. Z.div_mod_to_equations. lia.
Qed.

Lemma aged_fresh n p unix c :
  Z.of_nat n < 16777216 →
  aged n p c →
  Forall (λ d, ¬ has_id (bson.NewObjectId (reads p unix)) d) c.
Proof.
  intros Hn Hc. eapply Forall_impl; [exact Hc|].
  intros d (k & oid & Hk & Hgen & Hd) Hnew.
  unfold has_id in Hd, Hnew. rewrite Hd in Hnew. injection Hnew as Hnew.
  apply (NewObjectId_fresh p k unix oid); [lia | done | done].
Qed.

End generator_facts.

Section runs_of_a_process.

Lemma aged_weaken n n' p c : (n <= n')%nat → aged n p c → aged n' p c.
Proof.
  intros Hn Hc. eapply Forall_impl; [exact Hc|].
  intros d (k & oid & Hk & Hgen & Hd). exists k, oid. split_and!; [lia | lia | done..].
Qed.

Lemma aged_called n p c : aged n p c → aged (S n) (called p) c.
Proof.
  intros Hc. eapply Forall_impl; [exact Hc|].
  intros d (k & oid & Hk & (q & unix & -> & ->) & Hd).
  exists (S k), (bson.NewObjectId (reads q unix)).
  split_and!; [lia | lia | by exists q, unix | done].
Qed.

(** The identifier just generated is one call old in the next state. *)
Lemma aged_new n p unix (d : document) :
  has_id (bson.NewObjectId (reads p unix)) d → aged (S n) (called p) [d].
Proof.
  intros Hd. apply Forall_singleton.
  exists 1%nat, (bson.NewObjectId (reads p unix)).
  split_and!; [lia | lia | by exists p, unix | done].
Qed.

(** Documents that carry identifiers of [c] are as old as those of [c]. *)
Lemma aged_ids n p c c' :
  (∀ d', d' ∈ c' → ∃ d, d ∈ c ∧ d !! "_id" = d' !! "_id") →
  aged n p c → aged n p c'.
Proof.
  intros Hsub Hc. apply Forall_forall. intros d' Hd'.
  destruct (Hsub d' Hd') as (d & Hd & Heq).
  destruct (proj1 (Forall_forall _ _) Hc d Hd) as (k & oid & Hk & Hgen & Hid).
  exists k, oid. split_and!; [lia | lia | done |].
  unfold has_id in *. by rewrite <- Heq.
Qed.

Lemma same_ids_elem (c c' : list document) :
  ids c' = ids c → ∀ d', d' ∈ c' → ∃ d, d ∈ c ∧ d !! "_id" = d' !! "_id".
Proof.
  intros Hids d' (j & Hj)%list_elem_of_lookup.
  assert (ids c !! j = Some (d' !! "_id")) as Hc
    by (rewrite <- Hids; unfold ids; by rewrite list_lookup_fmap, Hj).
  unfold ids in Hc. apply list_lookup_fmap_Some in Hc as (d & Hd & Heq).
  exists d. split; [by eapply list_elem_of_lookup_2 | done].
Qed.

Lemma delete_elem (c : list document) i :
  ∀ d', d' ∈ delete i c → ∃ d, d ∈ c ∧ d !! "_id" = d' !! "_id".
Proof.
  intros d' Hd'. exists d'. split; [|done].
  eapply elem_of_sublist; [exact Hd' | apply sublist_delete].
Qed.

(** One request of a run: the documents stay no older than the count of
    requests, in the state the generator is left in. *)
Lemma handlers_aged n p k m r c :
  aged n p c →
  (∃ res, Main.todoHandlers m (env_at p k) r c = Some res
          ∧ aged (S n) (if generates m r then called p else p) (stored res))
  ∧ (∃ res, Part000.todoHandlers m (env_at p k) r c = Some res
            ∧ aged (S n) (if generates m r then called p else p) (stored res)).
Proof.
  intros Hc.
  assert (aged (S n) p c) as Hkeep by (eapply aged_weaken; [|done]; lia).
  split; destruct m; unfold generates; paths;
    eexists; (split; [reflexivity|]); cbn [stored];
    try rewrite bool_decide_eq_true_2 by done;
    try rewrite bool_decide_eq_false_2 by done;
    cbn [negb]; try done;
    repeat match goal with
      | H : mgo.Insert _ _ _ = (_, Some _) |- _ => apply Insert_error in H as ->
      | H : mgo.Update ?s ?c0 _ (<["title":=bson.VString (todo.Title ?t)]> _) = (?l, ?err),
        Ho : bson.ObjectIdHex _ = Some ?o |- _ =>
          let Hids := fresh "Hids" in
          destruct (Update_frame s c0 o t l err H) as (_ & Hids & _);
          pose proof (same_ids_elem _ _ Hids);
          clear H
      | H : mgo.RemoveId ?s ?c0 ?o = (?l, ?err) |- _ =>
          destruct (RemoveId_frame s c0 o l err H)
            as [[-> _] | (? & ? & _ & _ & -> & _)];
          clear H
      end;
    try done;
    try (by apply aged_called);
    try (by eapply aged_ids; [|exact Hkeep]);
    try (by eapply aged_ids; [apply delete_elem | exact Hkeep]).
  - match goal with H : mgo.Insert _ _ _ = _ |- _ =>
      apply (Insert_succeeds _ _ _ (bson.NewObjectId (reads p (unix k)))) in H
        as (_ & -> & _) end.
    + apply Forall_app. split; [by apply aged_called|].
      apply (aged_new n p (unix k)).
      by apply (Marshal_fields "createdAt" (new_item (env_at p k) t));
        [..|apply NewObjectId_nonempty].
    + by apply (Marshal_fields "createdAt" (new_item (env_at p k) t));
        [..|apply NewObjectId_nonempty].
  - match goal with H : mgo.Insert _ _ _ = _ |- _ =>
      apply (Insert_succeeds _ _ _ (bson.NewObjectId (reads p (unix k)))) in H
        as (_ & -> & _) end.
    + apply Forall_app. split; [by apply aged_called|].
      apply (aged_new n p (unix k)).
      by apply (Marshal_fields "created_at" (new_item (env_at p k) t));
        [..|apply NewObjectId_nonempty].
    + by apply (Marshal_fields "created_at" (new_item (env_at p k) t));
        [..|apply NewObjectId_nonempty].
Qed.

(** Along a run that starts with the empty collection, every stored
    identifier was generated within the run: it is at most as many calls
    old as the run has requests. *)
Lemma serve_process_aged requests n p c :
  aged n p c →
  (∃ p' c', serve_process Main.todoHandlers requests p c = Some (p', c')
            ∧ aged (n + length requests) p' c')
  ∧ (∃ p' c', serve_process Part000.todoHandlers requests p c = Some (p', c')
              ∧ aged (n + length requests) p' c').
Proof.
  revert n p c. induction requests as [|[[m k] r] rest IH]; intros n p c Hc.
  - split; exists p, c; (split; [reflexivity|]); by rewrite Nat.add_0_r.
  - destruct (handlers_aged n p k m r c Hc) as [(resM & HM & HaM) (resP & HP & HaP)].
    cbn [serve_process length]. rewrite HM, HP.
    replace (n + S (length rest))%nat with (S n + length rest)%nat by lia.
    split; [apply (IH (S n) _ _ HaM) | apply (IH (S n) _ _ HaP)].
Qed.

End runs_of_a_process.

Section fresh_identifiers.

Lemma unique_ids_snoc (c : list document) (doc : document) oid :
  doc !! "_id" = Some (bson.VObjectId oid) →
  Forall (λ d, ¬ has_id oid d) c →
  unique_ids c → unique_ids (c ++ [doc]).
Proof.
  unfold unique_ids, has_id. intros Hid Hfresh Hnd.
  rewrite fmap_app. apply NoDup_app. split_and!; [done | | apply NoDup_singleton].
  intros x (d & -> & Hd)%list_elem_of_fmap Hx%list_elem_of_singleton.
  apply (proj1 (Forall_forall _ _) Hfresh d Hd). congruence.
Qed.

(** From the empty collection, a run leaves documents whose identifiers the
    process generated within the run. *)
Lemma serve_process_generated requests p0 :
  (∀ p c, serve_process Main.todoHandlers requests p0 [] = Some (p, c) →
          aged (length requests) p c)
  ∧ (∀ p c, serve_process Part000.todoHandlers requests p0 [] = Some (p, c) →
            aged (length requests) p c).
Proof.
  destruct (serve_process_aged requests 0 p0 [])
    as [(pM & cM & HM & HaM) (pP & cP & HP & HaP)]; [by apply Forall_nil|].
  split; intros p c Hrun.
  - rewrite HM in Hrun. by injection Hrun as <- <-.
  - rewrite HP in Hrun. by injection Hrun as <- <-.
Qed.

End fresh_identifiers.

(** * The update operation *)

(** C1 (src/main.go departs from it).  An update request that passes the
    identifier check, decodes, has a non-empty title, and whose [Update]
    call returns no error: in part_000 the handler writes the 200
    confirmation; in main.go the handler returns having written nothing
    (the caller gets what net/http sends for a handler that wrote nothing,
    an empty body, and no confirmation). *)
Theorem updateTodo_success_response e r c oid t c' :
  let id := gostrings.TrimSpace (chi.URLParam r "id") in
  bson.IsObjectIdHex id = true →
  bson.ObjectIdHex id = Some oid →
  Body r = json.Into t →
  todo.Title t ≠ EmptyString →
  mgo.Update (session e) c (by_id oid) (title_completed t) = (c', None) →
  Part000.updateTodo e r c
  = Some {| stored := c';
            issued := [mgo.CallUpdate (by_id oid) (title_completed t)];
            written := message http.StatusOK "Todo updated successfully" |}
  ∧ Main.updateTodo e r c
    = Some {| stored := c';
              issued := [mgo.CallUpdate (by_id oid) (title_completed t)];
              written := [] |}.
Proof.
  intros id Hid Hoid Hbody Htitle Hupd. split.
  - rewrite (Part000_updateTodo_passes e r c oid t) by done. by rewrite Hupd.
  - rewrite (Main_updateTodo_passes e r c oid t) by done. by rewrite Hupd.
Qed.

Lemma updateTodo_success_response_witness :
  let r := Sample.request Sample.hexid (Sample.body "Buy milk" true) in
  let c := [Main.Marshal Sample.item] in
  Part000.updateTodo Sample.env r c
  = Some {| stored := [Sample.updated];
            issued := [mgo.CallUpdate (by_id Sample.oid) (title_completed Sample.change)];
            written := message http.StatusOK "Todo updated successfully" |}
  ∧ Main.updateTodo Sample.env r c
    = Some {| stored := [Sample.updated];
              issued := [mgo.CallUpdate (by_id Sample.oid) (title_completed Sample.change)];
              written := [] |}.
Proof.
  intros r c.
  apply (updateTodo_success_response Sample.env r c Sample.oid Sample.change);
    [vm_compute; reflexivity | vm_compute; reflexivity | reflexivity
    | discriminate | vm_compute; reflexivity].
Defined.

(** C2 (the code departs from it).  A successful update of a stored item
    puts in its place the document of [_id], [title] and [completed] alone:
    read back, the item has its identifier, the new title and flag, and the
    zero time as [CreatedAt], whatever it was before. *)
Theorem updateTodo_replaces_item e r c oid t i d :
  let id := gostrings.TrimSpace (chi.URLParam r "id") in
  let d' : document := <["_id" := bson.VObjectId oid]> (title_completed t) in
  bson.IsObjectIdHex id = true →
  bson.ObjectIdHex id = Some oid →
  Body r = json.Into t →
  todo.Title t ≠ EmptyString →
  mgo.fault (session e) = None →
  list_find (has_id oid) c = Some (i, d) →
  (∃ res, Main.updateTodo e r c = Some res ∧ stored res = <[i := d']> c
          ∧ written res = []
          ∧ Main.Unmarshal d'
            = {| todoModel.ID := oid; todoModel.Title := todo.Title t;
                 todoModel.Completed := todo.Completed t;
                 todoModel.CreatedAt := time.zero |})
  ∧ (∃ res, Part000.updateTodo e r c = Some res ∧ stored res = <[i := d']> c
            ∧ written res = message http.StatusOK "Todo updated successfully"
            ∧ Part000.Unmarshal d'
              = {| todoModel.ID := oid; todoModel.Title := todo.Title t;
                   todoModel.Completed := todo.Completed t;
                   todoModel.CreatedAt := time.zero |}).
Proof.
  intros id d' Hid Hoid Hbody Htitle Hs Hf.
  assert (mgo.Update (session e) c (by_id oid) (title_completed t)
          = (<[i := d']> c, None)) as Hupd.
  { apply (Update_found _ _ _ _ i d); [done|].
    rewrite <- Hf. apply list_find_ext, matches_by_id. }
  split.
  - rewrite (Main_updateTodo_passes e r c oid t) by done. rewrite Hupd.
    eexists. split_and!; reflexivity.
  - rewrite (Part000_updateTodo_passes e r c oid t) by done. rewrite Hupd.
    eexists. split_and!; reflexivity.
Qed.

(** At the item of [Sample]: created at 63800000000000, read back after the
    update with the zero time. *)
Lemma updateTodo_replaces_item_witness :
  let r := Sample.request Sample.hexid (Sample.body "Buy milk" true) in
  todoModel.CreatedAt (Main.Unmarshal (Main.Marshal Sample.item)) = 63800000000000
  ∧ todoModel.CreatedAt (Part000.Unmarshal (Part000.Marshal Sample.item)) = 63800000000000
  ∧ (∃ res, Main.updateTodo Sample.env r [Main.Marshal Sample.item] = Some res
            ∧ todoModel.CreatedAt <$> (Main.Unmarshal <$> stored res) = [0])
  ∧ (∃ res, Part000.updateTodo Sample.env r [Part000.Marshal Sample.item] = Some res
            ∧ todoModel.CreatedAt <$> (Part000.Unmarshal <$> stored res) = [0]).
Proof.
  intros r. split; [reflexivity|]. split; [reflexivity|].
  pose proof (updateTodo_replaces_item Sample.env r [Main.Marshal Sample.item]
                Sample.oid Sample.change 0%nat (Main.Marshal Sample.item)) as HM.
  pose proof (updateTodo_replaces_item Sample.env r [Part000.Marshal Sample.item]
                Sample.oid Sample.change 0%nat (Part000.Marshal Sample.item)) as HP.
  split.
  - destruct HM as [(res & Hres & Hst & _ & Hread) _];
      [vm_compute; reflexivity | vm_compute; reflexivity | reflexivity
      | discriminate | reflexivity | vm_compute; reflexivity |].
    exists res. split; [exact Hres|]. rewrite Hst. reflexivity.
  - destruct HP as [_ (res & Hres & Hst & _ & Hread)];
      [vm_compute; reflexivity | vm_compute; reflexivity | reflexivity
      | discriminate | reflexivity | vm_compute; reflexivity |].
    exists res. split; [exact Hres|]. rewrite Hst. reflexivity.
Defined.

(** C9.  An update request applied twice leaves the collection as one
    application leaves it, provided the first application reached the store
    (whatever the session's state at the second), or both meet the session
    in the same state.  This holds for every request: the identifier and
    the payload need not even be valid, since a rejected request changes
    nothing either time. *)
Theorem updateTodo_idempotent e1 e2 r c :
  mgo.fault (session e1) = None
  ∨ mgo.fault (session e2) = mgo.fault (session e1) →
  (∃ once twice,
      Main.updateTodo e1 r c = Some once
      ∧ Main.updateTodo e2 r (stored once) = Some twice
      ∧ stored twice = stored once)
  ∧ (∃ once twice,
        Part000.updateTodo e1 r c = Some once
        ∧ Part000.updateTodo e2 r (stored once) = Some twice
        ∧ stored twice = stored once).
Proof.
  intros Hs.
  destruct (bson.IsObjectIdHex (gostrings.TrimSpace (chi.URLParam r "id"))) eqn:Hid.
  2:{ split; eexists _, _;
        (split; [|split]);
        [ apply Main_updateTodo_invalid_id, Hid
        | apply Main_updateTodo_invalid_id, Hid | reflexivity
        | apply Part000_updateTodo_invalid_id, Hid
        | apply Part000_updateTodo_invalid_id, Hid | reflexivity ]. }
  destruct (Body r) as [err|t] eqn:Hbody.
  { split; eexists _, _;
      (split; [|split]);
      [ by apply Main_updateTodo_undecodable
      | by apply Main_updateTodo_undecodable | reflexivity
      | by apply Part000_updateTodo_undecodable
      | by apply Part000_updateTodo_undecodable | reflexivity ]. }
  destruct (decide (todo.Title t = EmptyString)) as [Ht|Ht].
  { split; eexists _, _;
      (split; [|split]);
      [ by apply (Main_updateTodo_empty_title _ _ _ t)
      | by apply (Main_updateTodo_empty_title _ _ _ t) | reflexivity
      | by apply (Part000_updateTodo_empty_title _ _ _ t)
      | by apply (Part000_updateTodo_empty_title _ _ _ t) | reflexivity ]. }
  destruct (ObjectIdHex_IsObjectIdHex _ Hid) as [oid Hoid].
  pose proof (Update_twice (session e1) (session e2) c oid t Hs) as Htwice.
  cbv zeta in Htwice.
  split.
  - rewrite (Main_updateTodo_passes _ r _ oid t) by done.
    destruct (mgo.Update (session e1) c _ _) as [c1 err1]. cbn [fst] in Htwice.
    pose proof (Main_updateTodo_passes e2 r c1 oid t Hid Hoid Hbody Ht) as H2.
    destruct (mgo.Update (session e2) c1 _ _) as [c2 err2]. cbn [fst] in Htwice.
    eexists _, _. split; [reflexivity|]. split; [exact H2 | exact Htwice].
  - rewrite (Part000_updateTodo_passes _ r _ oid t) by done.
    destruct (mgo.Update (session e1) c _ _) as [c1 err1]. cbn [fst] in Htwice.
    pose proof (Part000_updateTodo_passes e2 r c1 oid t Hid Hoid Hbody Ht) as H2.
    destruct (mgo.Update (session e2) c1 _ _) as [c2 err2]. cbn [fst] in Htwice.
    eexists _, _. split; [reflexivity|]. split; [exact H2 | exact Htwice].
Qed.

(** The item of [Sample] marked done twice.  First with the store in reach
    both times: each request issues its [Update], the first replaces the
    document, the second replaces it by the same (and the second variant
    answers 200 both times).  Then the second time with the store out of
    reach, and, starting over, both times with the store out of reach. *)
Lemma updateTodo_idempotent_witness :
  let r := Sample.request Sample.hexid (Sample.body "Buy milk" true) in
  let c := [Main.Marshal Sample.item] in
  let call := mgo.CallUpdate (by_id Sample.oid) (title_completed Sample.change) in
  ((∃ once twice,
      Main.updateTodo Sample.env r c = Some once
      ∧ Main.updateTodo Sample.env r (stored once) = Some twice
      ∧ stored twice = stored once
      ∧ stored once = [Sample.updated] ∧ stored once ≠ c
      ∧ issued once = [call] ∧ issued twice = [call])
   ∧ (∃ once twice,
        Part000.updateTodo Sample.env r c = Some once
        ∧ Part000.updateTodo Sample.env r (stored once) = Some twice
        ∧ stored twice = stored once
        ∧ stored once = [Sample.updated] ∧ stored once ≠ c
        ∧ issued once = [call] ∧ issued twice = [call]
        ∧ written once = message http.StatusOK "Todo updated successfully"
        ∧ written twice = message http.StatusOK "Todo updated successfully"))
  ∧ ((∃ once twice,
      Main.updateTodo Sample.env r c = Some once
      ∧ Main.updateTodo Sample.env_down r (stored once) = Some twice
      ∧ stored twice = stored once)
   ∧ (∃ once twice,
        Part000.updateTodo Sample.env r c = Some once
        ∧ Part000.updateTodo Sample.env_down r (stored once) = Some twice
        ∧ stored twice = stored once))
  ∧ ((∃ once twice,
        Main.updateTodo Sample.env_down r c = Some once
        ∧ Main.updateTodo Sample.env_down r (stored once) = Some twice
        ∧ stored twice = stored once)
     ∧ (∃ once twice,
          Part000.updateTodo Sample.env_down r c = Some once
          ∧ Part000.updateTodo Sample.env_down r (stored once) = Some twice
          ∧ stored twice = stored once)).
Proof.
  intros r c call. split; [|split].
  - destruct (updateTodo_idempotent Sample.env Sample.env r c)
      as [(once & twice & H1 & H2 & H3) (once' & twice' & H1' & H2' & H3')];
      [left; reflexivity|].
    split.
    + assert (Main.updateTodo Sample.env r c
              = Some {| stored := [Sample.updated]; issued := [call]; written := [] |})
        as E1 by (vm_compute; reflexivity).
      rewrite H1 in E1. injection E1 as ->.
      assert (Main.updateTodo Sample.env r [Sample.updated]
              = Some {| stored := [Sample.updated]; issued := [call]; written := [] |})
        as E2 by (vm_compute; reflexivity).
      pose proof H2 as H2c. cbn [stored] in H2c. rewrite H2c in E2.
      injection E2 as ->.
      eexists _, _. split; [exact H1|]. split; [exact H2|]. split; [exact H3|].
      cbn [stored issued].
      split; [reflexivity|]. split; [|split; reflexivity].
      intros Hsame.
      apply (f_equal (λ l : list document, l !! 0%nat ≫= (.!! "completed"))) in Hsame.
      vm_compute in Hsame. discriminate Hsame.
    + assert (Part000.updateTodo Sample.env r c
              = Some {| stored := [Sample.updated]; issued := [call];
                        written := message http.StatusOK "Todo updated successfully" |})
        as E1 by (vm_compute; reflexivity).
      rewrite H1' in E1. injection E1 as ->.
      assert (Part000.updateTodo Sample.env r [Sample.updated]
              = Some {| stored := [Sample.updated]; issued := [call];
                        written := message http.StatusOK "Todo updated successfully" |})
        as E2 by (vm_compute; reflexivity).
      pose proof H2' as H2c. cbn [stored] in H2c. rewrite H2c in E2.
      injection E2 as ->.
      eexists _, _. split; [exact H1'|]. split; [exact H2'|]. split; [exact H3'|].
      cbn [stored issued written].
      split; [reflexivity|]. split; [|split_and!; reflexivity].
      intros Hsame.
      apply (f_equal (λ l : list document, l !! 0%nat ≫= (.!! "completed"))) in Hsame.
      vm_compute in Hsame. discriminate Hsame.
  - apply (updateTodo_idempotent Sample.env Sample.env_down r c).
    left. reflexivity.
  - apply (updateTodo_idempotent Sample.env_down Sample.env_down r c).
    right. reflexivity.
Defined.

(** C5, as the code has it.  The identifier that is checked is the path
    parameter with its white space trimmed.  (1) If that is not an
    object-id in hex, the handler answers 400 and calls the store not at
    all; (2) otherwise, if the body does not decode, it answers with the
    decoding error under the processing status, again without a call;
    (3) otherwise, if the title is empty, it answers 400 without a call. *)
Theorem updateTodo_validation_order e r c :
  let id := gostrings.TrimSpace (chi.URLParam r "id") in
  (bson.IsObjectIdHex id = false →
     Main.updateTodo e r c
     = Some {| stored := c; issued := [];
               written := message http.StatusBadRequest "The ID is invalid" |}
     ∧ Part000.updateTodo e r c
       = Some {| stored := c; issued := [];
                 written := message http.StatusBadRequest "The id is invalid" |})
  ∧ (bson.IsObjectIdHex id = true → ∀ err, Body r = json.Failed err →
       Main.updateTodo e r c
       = Some {| stored := c; issued := [];
                 written := [ {| renderer.status := http.StatusProcessing;
                                 renderer.body := renderer.Plain err |} ] |}
       ∧ Part000.updateTodo e r c
         = Some {| stored := c; issued := [];
                   written := [ {| renderer.status := http.StatusProcessing;
                                   renderer.body := renderer.Plain err |} ] |})
  ∧ (bson.IsObjectIdHex id = true → ∀ t, Body r = json.Into t →
       todo.Title t = EmptyString →
       Main.updateTodo e r c
       = Some {| stored := c; issued := [];
                 written := message http.StatusBadRequest "The Title field is required" |}
       ∧ Part000.updateTodo e r c
         = Some {| stored := c; issued := [];
                   written := message http.StatusBadRequest "The title field is required" |}).
Proof.
  intros id. split_and!.
  - intros Hid. split;
      [by apply Main_updateTodo_invalid_id | by apply Part000_updateTodo_invalid_id].
  - intros Hid err Hbody. split;
      [by apply Main_updateTodo_undecodable | by apply Part000_updateTodo_undecodable].
  - intros Hid t Hbody Ht. split;
      [by apply (Main_updateTodo_empty_title _ _ _ t)
      | by apply (Part000_updateTodo_empty_title _ _ _ t)].
Qed.

(** The three rejections at concrete requests against a stored item: a
    short identifier; a good identifier with a body that does not decode;
    a good identifier with an empty title. *)
Lemma updateTodo_validation_order_witness :
  let c := [Main.Marshal Sample.item] in
  let syntax := ErrDecode "invalid character 'x' looking for beginning of value" in
  (Main.updateTodo Sample.env (Sample.request "abc" (json.Failed syntax)) c
   = Some {| stored := c; issued := [];
             written := message http.StatusBadRequest "The ID is invalid" |}
   ∧ Part000.updateTodo Sample.env (Sample.request "abc" (json.Failed syntax)) c
     = Some {| stored := c; issued := [];
               written := message http.StatusBadRequest "The id is invalid" |})
  ∧ (Main.updateTodo Sample.env (Sample.request Sample.hexid (json.Failed syntax)) c
     = Some {| stored := c; issued := [];
               written := [ {| renderer.status := http.StatusProcessing;
                               renderer.body := renderer.Plain syntax |} ] |}
     ∧ Part000.updateTodo Sample.env (Sample.request Sample.hexid (json.Failed syntax)) c
       = Some {| stored := c; issued := [];
                 written := [ {| renderer.status := http.StatusProcessing;
                                 renderer.body := renderer.Plain syntax |} ] |})
  ∧ (Main.updateTodo Sample.env (Sample.request Sample.hexid (Sample.body "" true)) c
     = Some {| stored := c; issued := [];
               written := message http.StatusBadRequest "The Title field is required" |}
     ∧ Part000.updateTodo Sample.env (Sample.request Sample.hexid (Sample.body "" true)) c
       = Some {| stored := c; issued := [];
                 written := message http.StatusBadRequest "The title field is required" |}).
Proof.
  intros c syntax. split; [|split].
  - destruct (updateTodo_validation_order Sample.env
                (Sample.request "abc" (json.Failed syntax)) c) as (H1 & _ & _).
    apply H1. vm_compute; reflexivity.
  - destruct (updateTodo_validation_order Sample.env
                (Sample.request Sample.hexid (json.Failed syntax)) c) as (_ & H2 & _).
    apply H2; [vm_compute; reflexivity | reflexivity].
  - destruct (updateTodo_validation_order Sample.env
                (Sample.request Sample.hexid (Sample.body "" true)) c) as (_ & _ & H3).
    eapply H3; [vm_compute; reflexivity | reflexivity | reflexivity].
Defined.

(** The first clause of C5 read on the path parameter as it arrives fails:
    with a space before a good identifier the parameter is no object-id in
    hex, yet the handler goes on to call [Update], and part_000 answers
    200. *)
Lemma updateTodo_untrimmed_identifier_accepted :
  let r := Sample.request (" " ++ Sample.hexid) (Sample.body "Buy milk" true) in
  let c := [Main.Marshal Sample.item] in
  bson.IsObjectIdHex (chi.URLParam r "id") = false
  ∧ Main.updateTodo Sample.env r c
    = Some {| stored := [Sample.updated];
              issued := [mgo.CallUpdate (by_id Sample.oid) (title_completed Sample.change)];
              written := [] |}
  ∧ Part000.updateTodo Sample.env r c
    = Some {| stored := [Sample.updated];
              issued := [mgo.CallUpdate (by_id Sample.oid) (title_completed Sample.change)];
              written := message http.StatusOK "Todo updated successfully" |}.
Proof. intros r c. split_and!; vm_compute; reflexivity. Qed.

(** * The identifier is trimmed before it is checked *)



(** * The create operation *)

(** C3.  A create request whose body decodes with an empty title is
    answered 400 with a message that names the title; no call reaches the
    store and the collection is as it was. *)
Theorem createTodo_empty_title_rejected e r c t :
  Body r = json.Into t →
  todo.Title t = EmptyString →
  Main.createTodo e r c
  = Some {| stored := c; issued := [];
            written := message http.StatusBadRequest "The title is required" |}
  ∧ Part000.createTodo e r c
    = Some {| stored := c; issued := [];
              written := message http.StatusBadRequest "The title field is important" |}.
Proof.
  intros Hbody Ht. split;
    [by apply (Main_createTodo_empty_title _ _ _ t)
    | by apply (Part000_createTodo_empty_title _ _ _ t)].
Qed.

Lemma createTodo_empty_title_rejected_witness :
  let r := Sample.request EmptyString (Sample.body "" true) in
  let c := [Main.Marshal Sample.item] in
  Main.createTodo Sample.env r c
  = Some {| stored := c; issued := [];
            written := message http.StatusBadRequest "The title is required" |}
  ∧ Part000.createTodo Sample.env r c
    = Some {| stored := c; issued := [];
              written := message http.StatusBadRequest "The title field is important" |}.
Proof.
  intros r c.
  apply (createTodo_empty_title_rejected Sample.env r c
           {| todo.ID := EmptyString; todo.Title := EmptyString;
              todo.Completed := true; todo.CreatedAt := time.zero |});
    reflexivity.
Defined.

(** C4.  A create request whose body decodes with a non-empty title makes
    the handler insert one document: its [_id] is the identifier
    [bson.NewObjectId] has just generated, its title the title of the body,
    [completed] false and the creation time the current time, whatever the
    body held in [id], [completed] and [created_at].  When [Insert] returns
    no error the document is the last of the collection, no other stored
    document has its identifier, and the answer is 201 with the identifier
    in hex, a form [bson.ObjectIdHex] reads back to the identifier.

    The identifier is fresh.  If every stored identifier is one the process
    generated in its last [n] calls of [bson.NewObjectId], with [n] below
    2^24, the new identifier differs from all of them, whatever the clock
    showed at any of the calls; a collection without duplicates stays so,
    and with the session in order [Insert] cannot refuse the document: the
    handler stores it and answers 201.  Such are the collections a run of
    the service reaches from the empty one in fewer than 2^24 requests. *)
Theorem createTodo_persists e r c t :
  Body r = json.Into t →
  todo.Title t ≠ EmptyString →
  let oid := bson.NewObjectId (id_source e) in
  bson.ObjectIdHex (bson.Hex oid) = Some oid
  ∧ (let doc := Main.Marshal (new_item e t) in
     doc !! "_id" = Some (bson.VObjectId oid)
     ∧ doc !! "title" = Some (bson.VString (todo.Title t))
     ∧ doc !! "completed" = Some (bson.VBool false)
     ∧ doc !! "createdAt" = Some (bson.VTime (clock e))
     ∧ ∃ res, Main.createTodo e r c = Some res
         ∧ issued res = [mgo.CallInsert doc]
         ∧ ∀ c', mgo.Insert (session e) c doc = (c', None) →
             stored res = (c ++ [doc])%list
             ∧ Forall (λ d, ¬ has_id oid d) c
             ∧ written res = created (bson.Hex oid))
  ∧ (let doc := Part000.Marshal (new_item e t) in
     doc !! "_id" = Some (bson.VObjectId oid)
     ∧ doc !! "title" = Some (bson.VString (todo.Title t))
     ∧ doc !! "completed" = Some (bson.VBool false)
     ∧ doc !! "created_at" = Some (bson.VTime (clock e))
     ∧ ∃ res, Part000.createTodo e r c = Some res
         ∧ issued res = [mgo.CallInsert doc]
         ∧ ∀ c', mgo.Insert (session e) c doc = (c', None) →
             stored res = (c ++ [doc])%list
             ∧ Forall (λ d, ¬ has_id oid d) c
             ∧ written res = created (bson.Hex oid))
  ∧ (∀ p unix n,
       id_source e = reads p unix →
       Z.of_nat n < 16777216 →
       aged n p c →
       Forall (λ d, ¬ has_id oid d) c
       ∧ (unique_ids c →
          unique_ids (c ++ [Main.Marshal (new_item e t)])
          ∧ unique_ids (c ++ [Part000.Marshal (new_item e t)]))
       ∧ (mgo.fault (session e) = None →
          Main.createTodo e r c
          = Some {| stored := (c ++ [Main.Marshal (new_item e t)])%list;
                    issued := [mgo.CallInsert (Main.Marshal (new_item e t))];
                    written := created (bson.Hex oid) |}
          ∧ Part000.createTodo e r c
            = Some {| stored := (c ++ [Part000.Marshal (new_item e t)])%list;
                      issued := [mgo.CallInsert (Part000.Marshal (new_item e t))];
                      written := created (bson.Hex oid) |}))
  ∧ (∀ requests p0 p unix,
       id_source e = reads p unix →
       Z.of_nat (length requests) < 16777216 →
       mgo.fault (session e) = None →
       (serve_process Main.todoHandlers requests p0 [] = Some (p, c) →
        Main.createTodo e r c
        = Some {| stored := (c ++ [Main.Marshal (new_item e t)])%list;
                  issued := [mgo.CallInsert (Main.Marshal (new_item e t))];
                  written := created (bson.Hex oid) |})
       ∧ (serve_process Part000.todoHandlers requests p0 [] = Some (p, c) →
          Part000.createTodo e r c
          = Some {| stored := (c ++ [Part000.Marshal (new_item e t)])%list;
                    issued := [mgo.CallInsert (Part000.Marshal (new_item e t))];
                    written := created (bson.Hex oid) |})).
Proof.
  intros Hbody Ht oid.
  destruct (Marshal_fields "createdAt" (new_item e t)) as (HM1 & HM2 & HM3 & HM4);
    [done.. | apply NewObjectId_nonempty |].
  destruct (Marshal_fields "created_at" (new_item e t)) as (HP1 & HP2 & HP3 & HP4);
    [done.. | apply NewObjectId_nonempty |].
  assert (∀ p unix n, id_source e = reads p unix → Z.of_nat n < 16777216 →
            aged n p c → Forall (λ d, ¬ has_id oid d) c) as Hfresh.
  { intros p unix n Hsrc Hn Hc. unfold oid. rewrite Hsrc. by apply (aged_fresh n). }
  assert (Forall (λ d, ¬ has_id oid d) c → mgo.fault (session e) = None →
          Main.createTodo e r c
          = Some {| stored := (c ++ [Main.Marshal (new_item e t)])%list;
                    issued := [mgo.CallInsert (Main.Marshal (new_item e t))];
                    written := created (bson.Hex oid) |}
          ∧ Part000.createTodo e r c
            = Some {| stored := (c ++ [Part000.Marshal (new_item e t)])%list;
                      issued := [mgo.CallInsert (Part000.Marshal (new_item e t))];
                      written := created (bson.Hex oid) |}) as Hstore.
  { intros Hf Hs. split.
    - rewrite (Main_createTodo_passes e r c t) by done. cbv zeta.
      by rewrite (Insert_fresh _ _ _ oid).
    - rewrite (Part000_createTodo_passes e r c t) by done. cbv zeta.
      by rewrite (Insert_fresh _ _ _ oid). }
  split; [apply ObjectIdHex_Hex, NewObjectId_length|].
  split; [|split; [|split]]; cbv zeta.
  - split_and!; [done..|].
    rewrite (Main_createTodo_passes e r c t) by done. cbv zeta.
    destruct (mgo.Insert _ _ _) as [c1 err] eqn:Hins.
    eexists. split; [reflexivity|]. split; [reflexivity|].
    intros c' [= -> ->].
    apply (Insert_succeeds _ _ _ oid) in Hins as (_ & -> & Hf); done.
  - split_and!; [done..|].
    rewrite (Part000_createTodo_passes e r c t) by done. cbv zeta.
    destruct (mgo.Insert _ _ _) as [c1 err] eqn:Hins.
    eexists. split; [reflexivity|]. split; [reflexivity|].
    intros c' [= -> ->].
    apply (Insert_succeeds _ _ _ oid) in Hins as (_ & -> & Hf); done.
  - intros p unix n Hsrc Hn Hc.
    pose proof (Hfresh p unix n Hsrc Hn Hc) as Hf.
    split; [exact Hf|]. split; [|by apply Hstore].
    intros Hu. split; by apply (unique_ids_snoc c _ oid).
  - intros requests p0 p unix Hsrc Hn Hs.
    destruct (serve_process_generated requests p0) as [HM HP].
    split; intros Hrun.
    + apply Hstore; [|done]. apply (Hfresh p unix (length requests)); [done..|].
      by apply HM.
    + apply Hstore; [|done]. apply (Hfresh p unix (length requests)); [done..|].
      by apply HP.
Qed.

(** A body that also supplies an identifier, [completed = true] and a
    creation time: none of the three reaches the store.  And two create
    requests of one process, ten seconds apart: the second item gets the
    identifier that follows that of the first, and is stored after it. *)
Lemma createTodo_persists_witness :
  let t := {| todo.ID := "ffffffffffffffffffffffff"; todo.Title := "Buy milk";
              todo.Completed := true; todo.CreatedAt := 1 |} in
  let r := Sample.request EmptyString (json.Into t) in
  let r0 := Sample.request EmptyString (Sample.body "Walk the dog" false) in
  let docM := Main.Marshal
                {| todoModel.ID := bson.NewObjectId (id_source Sample.env);
                   todoModel.Title := "Buy milk"; todoModel.Completed := false;
                   todoModel.CreatedAt := clock Sample.env |} in
  let docP := Part000.Marshal
                {| todoModel.ID := bson.NewObjectId (id_source Sample.env);
                   todoModel.Title := "Buy milk"; todoModel.Completed := false;
                   todoModel.CreatedAt := clock Sample.env |} in
  bson.Hex (bson.NewObjectId (id_source Sample.env)) = "5f5e10000102031234011170"
  ∧ (∃ res, Main.createTodo Sample.env r [Main.Marshal Sample.item] = Some res
       ∧ stored res = [Main.Marshal Sample.item; docM]
       ∧ written res = created "5f5e10000102031234011170")
  ∧ (∃ res, Part000.createTodo Sample.env r [Part000.Marshal Sample.item] = Some res
       ∧ stored res = [Part000.Marshal Sample.item; docP]
       ∧ written res = created "5f5e10000102031234011170")
  ∧ bson.Hex (todoModel.ID Sample.previous) = "5f5e0ff6010203123401116f"
  ∧ (serve_process Main.todoHandlers [(POST, Sample.before, r0)] Sample.earlier []
     = Some (Sample.process, [Main.Marshal Sample.previous])
     ∧ Main.createTodo Sample.env r [Main.Marshal Sample.previous]
       = Some {| stored := [Main.Marshal Sample.previous; docM];
                 issued := [mgo.CallInsert docM];
                 written := created "5f5e10000102031234011170" |})
  ∧ (serve_process Part000.todoHandlers [(POST, Sample.before, r0)] Sample.earlier []
     = Some (Sample.process, [Part000.Marshal Sample.previous])
     ∧ Part000.createTodo Sample.env r [Part000.Marshal Sample.previous]
       = Some {| stored := [Part000.Marshal Sample.previous; docP];
                 issued := [mgo.CallInsert docP];
                 written := created "5f5e10000102031234011170" |})
  ∧ (aged 1 Sample.process [Main.Marshal Sample.previous]
     ∧ Forall (λ d, ¬ has_id (bson.NewObjectId (id_source Sample.env)) d)
         [Main.Marshal Sample.previous]
     ∧ unique_ids [Main.Marshal Sample.previous; docM]).
Proof.
  intros t r r0 docM docP.
  assert (aged 1 Sample.process [Main.Marshal Sample.previous]) as Haged.
  { apply Forall_singleton. exists 1%nat, (todoModel.ID Sample.previous).
    split; [lia|]. split; [|reflexivity].
    exists Sample.earlier, 1599999990. split; reflexivity. }
  split; [reflexivity|]. split; [|split; [|split; [reflexivity|split; [|split]]]].
  - destruct (createTodo_persists Sample.env r [Main.Marshal Sample.item] t)
      as (_ & (_ & _ & _ & _ & res & Hres & _ & Hok) & _); [reflexivity | discriminate |].
    exists res. split; [exact Hres|].
    destruct (Hok [Main.Marshal Sample.item; docM]) as (Hst & _ & Hw);
      [vm_compute; reflexivity|].
    split; [exact Hst | exact Hw].
  - destruct (createTodo_persists Sample.env r [Part000.Marshal Sample.item] t)
      as (_ & _ & (_ & _ & _ & _ & res & Hres & _ & Hok) & _); [reflexivity | discriminate |].
    exists res. split; [exact Hres|].
    destruct (Hok [Part000.Marshal Sample.item; docP]) as (Hst & _ & Hw);
      [vm_compute; reflexivity|].
    split; [exact Hst | exact Hw].
  - split; [vm_compute; reflexivity|].
    destruct (createTodo_persists Sample.env r [Main.Marshal Sample.previous] t)
      as (_ & _ & _ & _ & Hrun); [reflexivity | discriminate |].
    destruct (Hrun [(POST, Sample.before, r0)] Sample.earlier Sample.process 1600000000)
      as [HM _]; [reflexivity | simpl; lia | reflexivity |].
    apply HM. vm_compute; reflexivity.
  - split; [vm_compute; reflexivity|].
    destruct (createTodo_persists Sample.env r [Part000.Marshal Sample.previous] t)
      as (_ & _ & _ & _ & Hrun); [reflexivity | discriminate |].
    destruct (Hrun [(POST, Sample.before, r0)] Sample.earlier Sample.process 1600000000)
      as [_ HP]; [reflexivity | simpl; lia | reflexivity |].
    apply HP. vm_compute; reflexivity.
  - split; [exact Haged|].
    destruct (createTodo_persists Sample.env r [Main.Marshal Sample.previous] t)
      as (_ & _ & _ & Hfresh & _); [reflexivity | discriminate |].
    destruct (Hfresh Sample.process 1600000000 1%nat) as (Hf & Hu & _);
      [reflexivity | simpl; lia | exact Haged |].
    split; [exact Hf|]. apply Hu.
    unfold unique_ids. apply NoDup_singleton.
Defined.

(** * The list operation *)

(** C6.  When the query of [fetchTodos] returns no error, the answer is 200
    with, under [data], the external representation of every stored item,
    in storage order; on the empty collection, the empty sequence.  The
    collection is left as it was. *)
Theorem fetchTodos_lists_all e r c :
  ((mgo.FindAll Main.Unmarshal (session e) c ∅).2 = None →
     Main.fetchTodos e r c
     = Some {| stored := c; issued := [mgo.CallFindAll ∅];
               written := listing (external <$> (Main.Unmarshal <$> c)) |})
  ∧ ((mgo.FindAll Part000.Unmarshal (session e) c ∅).2 = None →
       Part000.fetchTodos e r c
       = Some {| stored := c; issued := [mgo.CallFindAll ∅];
                 written := listing (external <$> (Part000.Unmarshal <$> c)) |})
  ∧ ((mgo.FindAll Main.Unmarshal (session e) [] ∅).2 = None →
       Main.fetchTodos e r []
       = Some {| stored := []; issued := [mgo.CallFindAll ∅]; written := listing [] |})
  ∧ ((mgo.FindAll Part000.Unmarshal (session e) [] ∅).2 = None →
       Part000.fetchTodos e r []
       = Some {| stored := []; issued := [mgo.CallFindAll ∅]; written := listing [] |}).
Proof.
  assert (∀ {T} (decode : document → T) c0,
            (mgo.FindAll decode (session e) c0 ∅).2 = None →
            mgo.FindAll decode (session e) c0 ∅ = (decode <$> c0, None)) as Hall.
  { intros T decode c0 Hok. apply FindAll_all.
    unfold mgo.FindAll in Hok. by destruct (mgo.fault (session e)). }
  split_and!; intros Hok.
  - by rewrite Main_fetchTodos_paths, (Hall _ _ _ Hok).
  - by rewrite Part000_fetchTodos_paths, (Hall _ _ _ Hok).
  - by rewrite Main_fetchTodos_paths, (Hall _ _ _ Hok).
  - by rewrite Part000_fetchTodos_paths, (Hall _ _ _ Hok).
Qed.

Lemma fetchTodos_lists_all_witness :
  let r := Sample.request EmptyString (json.Failed (ErrDecode "EOF")) in
  Main.fetchTodos Sample.env r [Main.Marshal Sample.item]
  = Some {| stored := [Main.Marshal Sample.item]; issued := [mgo.CallFindAll ∅];
            written := listing [ {| todo.ID := Sample.hexid; todo.Title := "Buy milk";
                                    todo.Completed := false;
                                    todo.CreatedAt := 63800000000000 |} ] |}
  ∧ Part000.fetchTodos Sample.env r [Part000.Marshal Sample.item]
    = Some {| stored := [Part000.Marshal Sample.item]; issued := [mgo.CallFindAll ∅];
              written := listing [ {| todo.ID := Sample.hexid; todo.Title := "Buy milk";
                                      todo.Completed := false;
                                      todo.CreatedAt := 63800000000000 |} ] |}
  ∧ Main.fetchTodos Sample.env r []
    = Some {| stored := []; issued := [mgo.CallFindAll ∅]; written := listing [] |}
  ∧ Part000.fetchTodos Sample.env r []
    = Some {| stored := []; issued := [mgo.CallFindAll ∅]; written := listing [] |}.
Proof.
  intros r.
  destruct (fetchTodos_lists_all Sample.env r [Main.Marshal Sample.item])
    as (HM & _ & HM0 & HP0).
  destruct (fetchTodos_lists_all Sample.env r [Part000.Marshal Sample.item])
    as (_ & HP & _ & _).
  split_and!; [apply HM | apply HP | apply HM0 | apply HP0]; reflexivity.
Defined.

(** * The delete operation *)

(** C7.  A delete request with a well-formed identifier.  If a stored item
    has the identifier and the call reaches the store, the first such item
    is removed (with unique identifiers, none with it remains), every other
    item stays, and the answer is the 200 confirmation.  If no stored item
    has it, [RemoveId] returns an error ([ErrNotFound] when the call
    reaches the store), the collection is as it was, and the answer carries
    that error under the processing status. *)
Theorem deleteTodo_by_identifier e r c :
  bson.IsObjectIdHex (chi.URLParam r "id") = true →
  ∃ oid, bson.ObjectIdHex (chi.URLParam r "id") = Some oid
    ∧ (mgo.fault (session e) = None →
       (∃ d, d ∈ c ∧ has_id oid d) →
         ∃ i d, c !! i = Some d ∧ has_id oid d
           ∧ length c = S (length (delete i c))
           ∧ (unique_ids c → Forall (λ d', ¬ has_id oid d') (delete i c))
           ∧ mgo.RemoveId (session e) c oid = (delete i c, None)
           ∧ Main.deleteTodo e r c
             = Some {| stored := delete i c; issued := [mgo.CallRemoveId oid];
                       written := message http.StatusOK "Todo deleted successfully" |}
           ∧ Part000.deleteTodo e r c
             = Some {| stored := delete i c; issued := [mgo.CallRemoveId oid];
                       written := message http.StatusOK "Todo deleted successfully" |})
    ∧ ((∀ d, d ∈ c → ¬ has_id oid d) →
         ∃ err, mgo.RemoveId (session e) c oid = (c, Some err)
           ∧ (mgo.fault (session e) = None → err = ErrNotFound)
           ∧ Main.deleteTodo e r c
             = Some {| stored := c; issued := [mgo.CallRemoveId oid];
                       written := failure "Failed to delete todo" err |}
           ∧ Part000.deleteTodo e r c
             = Some {| stored := c; issued := [mgo.CallRemoveId oid];
                       written := failure "Failed to delete todo" err |}).
Proof.
  intros Hvalid.
  assert (bson.IsObjectIdHex (gostrings.TrimSpace (chi.URLParam r "id")) = true) as Hid
    by (by rewrite TrimSpace_IsObjectIdHex).
  destruct (ObjectIdHex_IsObjectIdHex _ Hvalid) as [oid Hoid].
  assert (bson.ObjectIdHex (gostrings.TrimSpace (chi.URLParam r "id")) = Some oid) as Hoid'
    by (by rewrite TrimSpace_IsObjectIdHex).
  exists oid. split; [exact Hoid|]. split.
  - intros Hs (d0 & Hin & Hd0).
    destruct (list_find_elem_of (has_id oid) c d0 Hin Hd0) as [[i d] Hf].
    pose proof Hf as (Hi & Hd & _)%list_find_Some.
    pose proof (RemoveId_found (session e) c oid i d Hs Hf) as Hrm.
    exists i, d. split_and!; [done | done | | | done | |].
    + rewrite length_delete by eauto. apply lookup_lt_Some in Hi. lia.
    + intros Hu. by apply (unique_ids_delete c i d).
    + by rewrite (Main_deleteTodo_passes e r c oid), Hrm.
    + by rewrite (Part000_deleteTodo_passes e r c oid), Hrm.
  - intros Hnone.
    assert (∃ err, mgo.RemoveId (session e) c oid = (c, Some err)
                   ∧ (mgo.fault (session e) = None → err = ErrNotFound))
      as (err & Hrm & Herr).
    { destruct (mgo.fault (session e)) as [err|] eqn:Hs.
      - exists err. split; [by apply RemoveId_fault | done].
      - exists ErrNotFound. split; [|done]. apply RemoveId_missing; [done|].
        by apply list_find_None, Forall_forall. }
    exists err. split_and!; [done | done | |].
    + by rewrite (Main_deleteTodo_passes e r c oid), Hrm.
    + by rewrite (Part000_deleteTodo_passes e r c oid), Hrm.
Qed.

(** Deleting the stored item, then deleting it again. *)
Lemma deleteTodo_by_identifier_witness :
  let r := Sample.request Sample.hexid (json.Failed (ErrDecode "EOF")) in
  let c := [Main.Marshal Sample.item] in
  (Main.deleteTodo Sample.env r c
   = Some {| stored := []; issued := [mgo.CallRemoveId Sample.oid];
             written := message http.StatusOK "Todo deleted successfully" |}
   ∧ Part000.deleteTodo Sample.env r c
     = Some {| stored := []; issued := [mgo.CallRemoveId Sample.oid];
               written := message http.StatusOK "Todo deleted successfully" |})
  ∧ (Main.deleteTodo Sample.env r []
     = Some {| stored := []; issued := [mgo.CallRemoveId Sample.oid];
               written := failure "Failed to delete todo" ErrNotFound |}
     ∧ Part000.deleteTodo Sample.env r []
       = Some {| stored := []; issued := [mgo.CallRemoveId Sample.oid];
                 written := failure "Failed to delete todo" ErrNotFound |}).
Proof.
  intros r c. split.
  - destruct (deleteTodo_by_identifier Sample.env r c) as (oid & Hoid & Hfound & _);
      [vm_compute; reflexivity |].
    assert (oid = Sample.oid) as ->
      by (vm_compute in Hoid; injection Hoid as <-; reflexivity).
    destruct Hfound as (i & d & Hi & _ & _ & _ & _ & HM & HP); [reflexivity | |].
    { exists (Main.Marshal Sample.item). split; [left | reflexivity]. }
    destruct i as [|i]; [|destruct i; discriminate Hi].
    split; [exact HM | exact HP].
  - destruct (deleteTodo_by_identifier Sample.env r []) as (oid & Hoid & _ & Hmissing);
      [vm_compute; reflexivity |].
    assert (oid = Sample.oid) as ->
      by (vm_compute in Hoid; injection Hoid as <-; reflexivity).
    destruct Hmissing as (err & _ & Herr & HM & HP); [by intros d ?%elem_of_nil|].
    rewrite (Herr eq_refl) in HM, HP.
    split; [exact HM | exact HP].
Defined.

(** * Every stored item keeps a non-empty title *)

(** A path on which the handler leaves the collection as it found it. *)
Ltac untouched := eexists; split; [reflexivity | by left].

Section transitions.

(** The title an item is read back with is decided by the [title] field
    of its document. *)
Lemma Unmarshal_Title key (d : document) s :
  d !! "title" = Some (bson.VString s) →
  todoModel.Title (bson_struct.Unmarshal key d) = s.
Proof. unfold bson_struct.Unmarshal. cbn. by intros ->. Qed.

Lemma touched_titled key r c c' :
  touched r c c' →
  titled (bson_struct.Unmarshal key) c →
  titled (bson_struct.Unmarshal key) c'.
Proof.
  unfold titled.
  intros [-> | [[i ->] | (t & d & _ & Ht & Hd & [[-> _] | (i & d0 & _ & _ & ->)])]] Hc.
  - done.
  - by apply Forall_delete.
  - apply Forall_app. split; [done|]. apply Forall_singleton.
    by rewrite (Unmarshal_Title key d (todo.Title t)).
  - apply Forall_insert; [done|].
    by rewrite (Unmarshal_Title key d (todo.Title t)).
Qed.

Lemma touched_unique_ids r c c' :
  touched r c c' → unique_ids c → unique_ids c'.
Proof.
  unfold unique_ids.
  intros [-> | [[i ->] | (t & d & _ & _ & _ & [[-> Hnew] | (i & d0 & Hi & Hid & ->)])]] Hc.
  - done.
  - rewrite list_fmap_delete. eapply sublist_NoDup; [done | apply sublist_delete].
  - rewrite fmap_app. apply NoDup_app. split_and!; [done | | apply NoDup_singleton].
    intros x (d0 & -> & Hd0)%list_elem_of_fmap Heq%list_elem_of_singleton.
    by apply (proj1 (Forall_forall _ _) Hnew d0).
  - rewrite list_fmap_insert, list_insert_id; [done|].
    by rewrite list_lookup_fmap, Hi, <- Hid.
Qed.

Context (e : Env) (r : Request) (c : list document).

Lemma Insert_touched doc t :
  Body r = json.Into t → todo.Title t ≠ EmptyString →
  doc !! "title" = Some (bson.VString (todo.Title t)) →
  touched r c (mgo.Insert (session e) c doc).1.
Proof.
  intros Hbody Ht Hdoc.
  destruct (Insert_stored (session e) c doc) as (doc' & Hdoc' & [-> | [-> Hnew]]);
    [by left|].
  right; right. exists t, doc'. split_and!; [done | done | | by left].
  destruct Hdoc' as [-> | [oid ->]]; [done | by simplify_map_eq].
Qed.

Lemma Update_touched oid t :
  Body r = json.Into t → todo.Title t ≠ EmptyString →
  touched r c (mgo.Update (session e) c (by_id oid) (title_completed t)).1.
Proof.
  intros Hbody Ht.
  destruct (Update_stored (session e) c oid t) as [-> | (i & d0 & Hi & Hd0 & ->)];
    [by left|].
  right; right.
  exists t, (<["_id" := bson.VObjectId oid]> (title_completed t)).
  split_and!; [done | done | reflexivity |].
  right. exists i, d0. split_and!; [done | | done].
  rewrite Hd0. by simplify_map_eq.
Qed.

Lemma RemoveId_touched oid :
  touched r c (mgo.RemoveId (session e) c oid).1.
Proof.
  destruct (RemoveId_stored (session e) c oid) as [-> | [i ->]];
    [by left | right; left; eauto].
Qed.

Lemma Main_todoHandlers_stored m :
  ∃ res, Main.todoHandlers m e r c = Some res ∧ touched r c (stored res).
Proof.
  destruct m; cbn [Main.todoHandlers].
  - rewrite Main_fetchTodos_paths. destruct (mgo.FindAll _ _ _ _) as [todos err].
    untouched.
  - destruct (Body r) as [err|t] eqn:Hbody.
    { rewrite (Main_createTodo_undecodable e r c err) by done.
      untouched. }
    destruct (decide (todo.Title t = EmptyString)) as [Ht|Ht].
    { rewrite (Main_createTodo_empty_title e r c t) by done.
      untouched. }
    rewrite (Main_createTodo_passes e r c t) by done. cbv zeta.
    pose proof (Insert_touched (Main.Marshal (new_item e t)) t Hbody Ht) as Hins.
    destruct (mgo.Insert _ _ _) as [c' err].
    eexists. split; [reflexivity|]. apply Hins.
    by apply (Marshal_fields "createdAt" (new_item e t)); [..|apply NewObjectId_nonempty].
  - destruct (bson.IsObjectIdHex (gostrings.TrimSpace (chi.URLParam r "id"))) eqn:Hid.
    2:{ rewrite Main_updateTodo_invalid_id by done.
        untouched. }
    destruct (Body r) as [err|t] eqn:Hbody.
    { rewrite (Main_updateTodo_undecodable e r c err) by done.
      untouched. }
    destruct (decide (todo.Title t = EmptyString)) as [Ht|Ht].
    { rewrite (Main_updateTodo_empty_title e r c t) by done.
      untouched. }
    destruct (ObjectIdHex_IsObjectIdHex _ Hid) as [oid Hoid].
    rewrite (Main_updateTodo_passes e r c oid t) by done.
    pose proof (Update_touched oid t Hbody Ht) as Hupd.
    destruct (mgo.Update _ _ _ _) as [c' err].
    eexists. split; [reflexivity | exact Hupd].
  - destruct (bson.IsObjectIdHex (gostrings.TrimSpace (chi.URLParam r "id"))) eqn:Hid.
    2:{ rewrite Main_deleteTodo_invalid_id by done.
        untouched. }
    destruct (ObjectIdHex_IsObjectIdHex _ Hid) as [oid Hoid].
    rewrite (Main_deleteTodo_passes e r c oid) by done.
    pose proof (RemoveId_touched oid) as Hrm.
    destruct (mgo.RemoveId _ _ _) as [c' err].
    eexists. split; [reflexivity | exact Hrm].
Qed.

Lemma Part000_todoHandlers_stored m :
  ∃ res, Part000.todoHandlers m e r c = Some res ∧ touched r c (stored res).
Proof.
  destruct m; cbn [Part000.todoHandlers].
  - rewrite Part000_fetchTodos_paths. destruct (mgo.FindAll _ _ _ _) as [todos err].
    untouched.
  - destruct (Body r) as [err|t] eqn:Hbody.
    { rewrite (Part000_createTodo_undecodable e r c err) by done.
      untouched. }
    destruct (decide (todo.Title t = EmptyString)) as [Ht|Ht].
    { rewrite (Part000_createTodo_empty_title e r c t) by done.
      untouched. }
    rewrite (Part000_createTodo_passes e r c t) by done. cbv zeta.
    pose proof (Insert_touched (Part000.Marshal (new_item e t)) t Hbody Ht) as Hins.
    destruct (mgo.Insert _ _ _) as [c' err].
    eexists. split; [reflexivity|]. apply Hins.
    by apply (Marshal_fields "created_at" (new_item e t)); [..|apply NewObjectId_nonempty].
  - destruct (bson.IsObjectIdHex (gostrings.TrimSpace (chi.URLParam r "id"))) eqn:Hid.
    2:{ rewrite Part000_updateTodo_invalid_id by done.
        untouched. }
    destruct (Body r) as [err|t] eqn:Hbody.
    { rewrite (Part000_updateTodo_undecodable e r c err) by done.
      untouched. }
    destruct (decide (todo.Title t = EmptyString)) as [Ht|Ht].
    { rewrite (Part000_updateTodo_empty_title e r c t) by done.
      untouched. }
    destruct (ObjectIdHex_IsObjectIdHex _ Hid) as [oid Hoid].
    rewrite (Part000_updateTodo_passes e r c oid t) by done.
    pose proof (Update_touched oid t Hbody Ht) as Hupd.
    destruct (mgo.Update _ _ _ _) as [c' err].
    eexists. split; [reflexivity | exact Hupd].
  - destruct (bson.IsObjectIdHex (gostrings.TrimSpace (chi.URLParam r "id"))) eqn:Hid.
    2:{ rewrite Part000_deleteTodo_invalid_id by done.
        untouched. }
    destruct (ObjectIdHex_IsObjectIdHex _ Hid) as [oid Hoid].
    rewrite (Part000_deleteTodo_passes e r c oid) by done.
    pose proof (RemoveId_touched oid) as Hrm.
    destruct (mgo.RemoveId _ _ _) as [c' err].
    eexists. split; [reflexivity | exact Hrm].
Qed.

End transitions.

(** C8.  From a collection in which every item has a non-empty title, each
    of the four operations returns and leaves a collection in which every
    item has a non-empty title. *)
Theorem nonempty_title_invariant m e r c :
  (titled Main.Unmarshal c →
     ∃ res, Main.todoHandlers m e r c = Some res
            ∧ titled Main.Unmarshal (stored res))
  ∧ (titled Part000.Unmarshal c →
       ∃ res, Part000.todoHandlers m e r c = Some res
              ∧ titled Part000.Unmarshal (stored res)).
Proof.
  split; intros Hc.
  - destruct (Main_todoHandlers_stored e r c m) as (res & Hres & Hst).
    exists res. split; [exact Hres|].
    by apply (touched_titled "createdAt" r c).
  - destruct (Part000_todoHandlers_stored e r c m) as (res & Hres & Hst).
    exists res. split; [exact Hres|].
    by apply (touched_titled "created_at" r c).
Qed.

(** An update with a new title, on a collection of one titled item. *)
Lemma nonempty_title_invariant_witness :
  let r := Sample.request Sample.hexid (Sample.body "Buy oat milk" false) in
  (∃ res, Main.todoHandlers PUT Sample.env r [Main.Marshal Sample.item] = Some res
          ∧ titled Main.Unmarshal (stored res))
  ∧ (∃ res, Part000.todoHandlers PUT Sample.env r [Part000.Marshal Sample.item] = Some res
            ∧ titled Part000.Unmarshal (stored res)).
Proof.
  intros r. split.
  - apply (nonempty_title_invariant PUT Sample.env r [Main.Marshal Sample.item]).
    apply Forall_singleton. discriminate.
  - apply (nonempty_title_invariant PUT Sample.env r [Part000.Marshal Sample.item]).
    apply Forall_singleton. discriminate.
Defined.

(** * Identifiers stay unique *)

(** The same holds of the uniqueness of identifiers, which the statement
    about deletion above supposes. *)
Lemma unique_ids_invariant m e r c :
  unique_ids c →
  (∃ res, Main.todoHandlers m e r c = Some res ∧ unique_ids (stored res))
  ∧ (∃ res, Part000.todoHandlers m e r c = Some res ∧ unique_ids (stored res)).
Proof.
  intros Hc. split.
  - destruct (Main_todoHandlers_stored e r c m) as (res & Hres & Hst).
    exists res. split; [exact Hres|]. by apply (touched_unique_ids r c).
  - destruct (Part000_todoHandlers_stored e r c m) as (res & Hres & Hst).
    exists res. split; [exact Hres|]. by apply (touched_unique_ids r c).
Qed.

(** * Runs of the service *)

(** Both properties hold along every run, and so in every collection the
    service can reach from the empty one; no run ends in a panic. *)
Lemma serve_Main requests c :
  titled Main.Unmarshal c → unique_ids c →
  ∃ c', serve Main.todoHandlers requests c = Some c'
        ∧ titled Main.Unmarshal c' ∧ unique_ids c'.
Proof.
  revert c. induction requests as [|[[m e] r] rest IH]; intros c Ht Hu; simpl.
  - eauto.
  - destruct (Main_todoHandlers_stored e r c m) as (res & -> & Hst).
    apply IH.
    + by apply (touched_titled "createdAt" r c).
    + by apply (touched_unique_ids r c).
Qed.

Lemma serve_Part000 requests c :
  titled Part000.Unmarshal c → unique_ids c →
  ∃ c', serve Part000.todoHandlers requests c = Some c'
        ∧ titled Part000.Unmarshal c' ∧ unique_ids c'.
Proof.
  revert c. induction requests as [|[[m e] r] rest IH]; intros c Ht Hu; simpl.
  - eauto.
  - destruct (Part000_todoHandlers_stored e r c m) as (res & -> & Hst).
    apply IH.
    + by apply (touched_titled "created_at" r c).
    + by apply (touched_unique_ids r c).
Qed.

Lemma serve_from_empty requests :
  (∃ c, serve Main.todoHandlers requests [] = Some c
        ∧ titled Main.Unmarshal c ∧ unique_ids c)
  ∧ (∃ c, serve Part000.todoHandlers requests [] = Some c
          ∧ titled Part000.Unmarshal c ∧ unique_ids c).
Proof.
  split; [apply serve_Main | apply serve_Part000];
    (apply Forall_nil_2 || apply NoDup_nil_2).
Qed.
